(** * LifeFlow: row-level security, request lifecycle and contact requests

    A shallow embedding of the SQL schema, policies and procedures under
    [supabase/migrations], together with the statements the client
    components send to them.  Tables are lists of rows (heap order), the
    profiles table is a finite map keyed on its UNIQUE NOT NULL [user_id],
    SQL conditions are three-valued, and a statement either yields a new
    database or an SQL error. *)

From stdpp Require Import base option list gmap strings sorting.

Local Open Scope Z_scope.
Local Open Scope string_scope.

(** ** SQL three-valued logic

    A nullable value is an [option]; [None] is NULL.  A condition keeps a
    row (in WHERE, USING, WITH CHECK, CASE WHEN and EXISTS) only when it is
    TRUE, not when it is FALSE or NULL. *)

Module Sql.

Definition and3 (a b : option bool) : option bool :=
  match a, b with
  | Some false, _ | _, Some false => Some false
  | Some true, Some true => Some true
  | _, _ => None
  end.

Definition or3 (a b : option bool) : option bool :=
  match a, b with
  | Some true, _ | _, Some true => Some true
  | Some false, Some false => Some false
  | _, _ => None
  end.

Definition eq3 {A} `{EqDecision A} (a b : option A) : option bool :=
  match a, b with
  | Some x, Some y => Some (bool_decide (x = y))
  | _, _ => None
  end.

Definition ne3 {A} `{EqDecision A} (a b : option A) : option bool :=
  match a, b with
  | Some x, Some y => Some (negb (bool_decide (x = y)))
  | _, _ => None
  end.

Definition gt3 (a b : option Z) : option bool :=
  match a, b with
  | Some x, Some y => Some (bool_decide (y < x))
  | _, _ => None
  end.

Definition le3 (a b : option Z) : option bool :=
  match a, b with
  | Some x, Some y => Some (bool_decide (x <= y))
  | _, _ => None
  end.

Definition holds (c : option bool) : bool :=
  match c with
  | Some true => true
  | _ => false
  end.

(** SQLSTATE classes raised by the statements modelled below. *)
Inductive error :=
| invalid_text_representation   (* 22P02: bad enum label *)
| unique_violation              (* 23505 *)
| foreign_key_violation         (* 23503 *)
| check_violation               (* 23514 *)
| insufficient_privilege.       (* 42501: row-level security *)

Inductive result (A : Type) :=
| Ok (a : A)
| Error (e : error).
Arguments Ok {A} a.
Arguments Error {A} e.

Definition bind {A B} (x : result A) (f : A → result B) : result B :=
  match x with
  | Ok a => f a
  | Error e => Error e
  end.

(** Row-by-row execution of a statement: the first error aborts it. *)
Fixpoint for_each_row {A} (f : A → result A) (rows : list A)
    : result (list A) :=
  match rows with
  | [] => Ok []
  | r :: rest =>
      bind (f r) (λ r',
        bind (for_each_row f rest) (λ rest', Ok (r' :: rest')))
  end.

End Sql.

Abbreviation col x := (Some x) (only parsing).

(** ** Schema *)

(** [CREATE TYPE public.blood_group AS ENUM (...)] *)
Inductive blood_group :=
| O_pos | O_neg | A_pos | A_neg | B_pos | B_neg | AB_pos | AB_neg.

(** [CREATE TYPE public.request_status AS ENUM ('open', 'claimed',
    'fulfilled', 'expired')] *)
Inductive request_status := open | claimed | fulfilled | expired.

Global Instance blood_group_eq_dec : EqDecision blood_group.
Proof. solve_decision. Defined.

Global Instance request_status_eq_dec : EqDecision request_status.
Proof. solve_decision. Defined.

(** Enum input: the cast from a text label sent by the client. *)
Definition blood_group_in (label : string) : option blood_group :=
  match label with
  | "O+" => Some O_pos | "O-" => Some O_neg
  | "A+" => Some A_pos | "A-" => Some A_neg
  | "B+" => Some B_pos | "B-" => Some B_neg
  | "AB+" => Some AB_pos | "AB-" => Some AB_neg
  | _ => None
  end.

Definition request_status_in (label : string) : option request_status :=
  match label with
  | "open" => Some open
  | "claimed" => Some claimed
  | "fulfilled" => Some fulfilled
  | "expired" => Some expired
  | _ => None
  end.

Definition request_status_out (s : request_status) : string :=
  match s with
  | open => "open"
  | claimed => "claimed"
  | fulfilled => "fulfilled"
  | expired => "expired"
  end.

(** Timestamps are microseconds; [interval '24 hours'] and
    ['72:00:00'::interval]. *)
Definition interval_24_hours : Z := 24 * 3600 * 1000000.
Definition interval_72_hours : Z := 72 * 3600 * 1000000.

Module profiles.
(** The row without [user_id], which is the key of the table. *)
Record row := {
  id : N;
  full_name : string;
  phone : string;
  district : string;
  state : string;
  blood_group : blood_group;
  created_at : Z;
  updated_at : Z;
  is_confirmed : option bool
}.
End profiles.

Module requests.
Record row := {
  id : N;
  requester_id : N;
  blood_group : blood_group;
  requester_name : string;
  requester_phone : string;
  district : string;
  state : string;
  location_description : option string;
  message : option string;
  status : request_status;
  expires_at : Z;
  created_at : Z;
  updated_at : Z
}.

Definition set_status (s : request_status) (r : row) : row :=
  {| id := id r; requester_id := requester_id r;
     blood_group := blood_group r; requester_name := requester_name r;
     requester_phone := requester_phone r; district := district r;
     state := state r; location_description := location_description r;
     message := message r; status := s; expires_at := expires_at r;
     created_at := created_at r; updated_at := updated_at r |}.

Definition set_updated_at (t : Z) (r : row) : row :=
  {| id := id r; requester_id := requester_id r;
     blood_group := blood_group r; requester_name := requester_name r;
     requester_phone := requester_phone r; district := district r;
     state := state r; location_description := location_description r;
     message := message r; status := status r; expires_at := expires_at r;
     created_at := created_at r; updated_at := t |}.
End requests.

Module claims.
Record row := {
  id : N;
  request_id : N;
  donor_id : N;
  claimed_at : Z
}.
End claims.

Module contact_requests.
Record row := {
  id : N;
  request_id : N;
  donor_id : N;
  requester_id : N;
  status : string;
  message : option string;
  created_at : Z;
  updated_at : Z;
  expires_at : Z
}.

Definition set_status (s : string) (r : row) : row :=
  {| id := id r; request_id := request_id r; donor_id := donor_id r;
     requester_id := requester_id r; status := s; message := message r;
     created_at := created_at r; updated_at := updated_at r;
     expires_at := expires_at r |}.

Definition set_updated_at (t : Z) (r : row) : row :=
  {| id := id r; request_id := request_id r; donor_id := donor_id r;
     requester_id := requester_id r; status := status r;
     message := message r; created_at := created_at r; updated_at := t;
     expires_at := expires_at r |}.

(** [CHECK (status IN ('pending', 'approved', 'declined', 'expired'))] *)
Definition status_check (r : row) : bool :=
  bool_decide (status r ∈ ["pending"; "approved"; "declined"; "expired"]).
End contact_requests.

(** The rows [get_safe_requests] returns: [requester_phone] is nullable. *)
Module safe_requests.
Record row := {
  id : N;
  blood_group : blood_group;
  requester_id : N;
  requester_name : string;
  requester_phone : option string;
  district : string;
  state : string;
  location_description : option string;
  message : option string;
  status : request_status;
  expires_at : Z;
  created_at : Z;
  updated_at : Z
}.
End safe_requests.

Record database := {
  tbl_auth_users : gset N;
  tbl_profiles : gmap N profiles.row;
  tbl_requests : list requests.row;
  tbl_claims : list claims.row;
  tbl_contact_requests : list contact_requests.row
}.

Definition with_requests (rs : list requests.row) (db : database) :=
  {| tbl_auth_users := tbl_auth_users db;
     tbl_profiles := tbl_profiles db; tbl_requests := rs;
     tbl_claims := tbl_claims db;
     tbl_contact_requests := tbl_contact_requests db |}.

Definition with_claims (cs : list claims.row) (db : database) :=
  {| tbl_auth_users := tbl_auth_users db;
     tbl_profiles := tbl_profiles db; tbl_requests := tbl_requests db;
     tbl_claims := cs;
     tbl_contact_requests := tbl_contact_requests db |}.

Definition with_contact_requests (crs : list contact_requests.row)
    (db : database) :=
  {| tbl_auth_users := tbl_auth_users db;
     tbl_profiles := tbl_profiles db; tbl_requests := tbl_requests db;
     tbl_claims := tbl_claims db; tbl_contact_requests := crs |}.

(** ** Scalar subqueries on the caller's profile

    [(SELECT profiles.district FROM profiles WHERE profiles.user_id =
    auth.uid())]: NULL when no row qualifies, which is the case when
    [auth.uid()] is NULL or the caller has no profile. *)

Definition caller_profile (db : database) (uid : option N)
    : option profiles.row :=
  u ← uid; tbl_profiles db !! u.

Definition caller_district (db : database) (uid : option N) : option string :=
  profiles.district <$> caller_profile db uid.

Definition caller_blood_group (db : database) (uid : option N)
    : option blood_group :=
  profiles.blood_group <$> caller_profile db uid.

(** ** get_safe_requests (migration 20250930132633) *)

(** The EXISTS subquery of the CASE expression. *)
Definition approved_contact (uid : option N)
    (r : requests.row) (cr : contact_requests.row) : option bool :=
  Sql.and3
    (Sql.and3
       (Sql.eq3 (col (contact_requests.request_id cr)) (col (requests.id r)))
       (Sql.eq3 (col (contact_requests.donor_id cr)) uid))
    (Sql.eq3 (col (contact_requests.status cr)) (col "approved")).

Definition has_approved_contact (db : database) (uid : option N)
    (r : requests.row) : bool :=
  existsb (λ cr, Sql.holds (approved_contact uid r cr))
    (tbl_contact_requests db).

(** [CASE WHEN r.requester_id = auth.uid() THEN r.requester_phone
         WHEN EXISTS (...) THEN r.requester_phone ELSE NULL END] *)
Definition safe_phone (db : database) (uid : option N) (r : requests.row)
    : option string :=
  if Sql.holds (Sql.eq3 (col (requests.requester_id r)) uid)
  then col (requests.requester_phone r)
  else if has_approved_contact db uid r
  then col (requests.requester_phone r)
  else None.

Definition safe_select (db : database) (uid : option N) (r : requests.row)
    : safe_requests.row :=
  {| safe_requests.id := requests.id r;
     safe_requests.blood_group := requests.blood_group r;
     safe_requests.requester_id := requests.requester_id r;
     safe_requests.requester_name := requests.requester_name r;
     safe_requests.requester_phone := safe_phone db uid r;
     safe_requests.district := requests.district r;
     safe_requests.state := requests.state r;
     safe_requests.location_description := requests.location_description r;
     safe_requests.message := requests.message r;
     safe_requests.status := requests.status r;
     safe_requests.expires_at := requests.expires_at r;
     safe_requests.created_at := requests.created_at r;
     safe_requests.updated_at := requests.updated_at r |}.

(** [shares_columns r row]: the returned row has the stored request's value
    in every column but the phone. *)
Definition shares_columns (r : requests.row) (row : safe_requests.row)
    : Prop :=
  safe_requests.id row = requests.id r
  ∧ safe_requests.blood_group row = requests.blood_group r
  ∧ safe_requests.requester_id row = requests.requester_id r
  ∧ safe_requests.requester_name row = requests.requester_name r
  ∧ safe_requests.district row = requests.district r
  ∧ safe_requests.state row = requests.state r
  ∧ safe_requests.location_description row = requests.location_description r
  ∧ safe_requests.message row = requests.message r
  ∧ safe_requests.status row = requests.status r
  ∧ safe_requests.expires_at row = requests.expires_at r
  ∧ safe_requests.created_at row = requests.created_at r
  ∧ safe_requests.updated_at row = requests.updated_at r.

(** The district and blood-group comparison of the WHERE clause. *)
Definition district_blood_match (db : database) (uid : option N)
    (r : requests.row) : option bool :=
  Sql.and3
    (Sql.eq3 (col (requests.district r)) (caller_district db uid))
    (Sql.eq3 (col (requests.blood_group r)) (caller_blood_group db uid)).

(** [WHERE r.status = 'open' AND r.expires_at > now() AND ((... AND
    r.requester_id <> auth.uid()) OR r.requester_id = auth.uid())] *)
Definition safe_where (db : database) (now : Z) (uid : option N)
    (r : requests.row) : option bool :=
  Sql.and3
    (Sql.and3
       (Sql.eq3 (col (requests.status r)) (col open))
       (Sql.gt3 (col (requests.expires_at r)) (col now)))
    (Sql.or3
       (Sql.and3 (district_blood_match db uid r)
          (Sql.ne3 (col (requests.requester_id r)) uid))
       (Sql.eq3 (col (requests.requester_id r)) uid)).

(** [ORDER BY r.created_at DESC] *)
Definition created_at_desc (a b : requests.row) : Prop :=
  requests.created_at b <= requests.created_at a.

Global Instance created_at_desc_dec a b : Decision (created_at_desc a b).
Proof. unfold created_at_desc. apply _. Defined.

Definition get_safe_requests (db : database) (now : Z) (uid : option N)
    : list safe_requests.row :=
  safe_select db uid <$>
    merge_sort created_at_desc
      (filter (λ r, Sql.holds (safe_where db now uid r) = true)
         (tbl_requests db)).

(** ** Row-level security on [requests]

    The SELECT policy of migration 20250925113624, which replaces the one
    of the first migration (dropped under its truncated 63-byte name). *)
Definition requests_select_policy (db : database) (now : Z) (uid : option N)
    (r : requests.row) : option bool :=
  Sql.and3
    (Sql.and3
       (Sql.eq3 (col (requests.status r)) (col open))
       (Sql.gt3 (col (requests.expires_at r)) (col now)))
    (Sql.or3
       (Sql.and3
          (Sql.and3
             (Sql.eq3 (col (requests.district r)) (caller_district db uid))
             (Sql.eq3 (col (requests.blood_group r))
                (caller_blood_group db uid)))
          (Sql.ne3 (col (requests.requester_id r)) uid))
       (Sql.eq3 (col (requests.requester_id r)) uid)).

(** [FOR INSERT WITH CHECK (auth.uid() = requester_id)] *)
Definition requests_insert_policy (uid : option N) (r : requests.row)
    : option bool :=
  Sql.eq3 uid (col (requests.requester_id r)).

(** [FOR UPDATE USING (auth.uid() = requester_id)] *)
Definition requests_update_policy (uid : option N) (r : requests.row)
    : option bool :=
  Sql.eq3 uid (col (requests.requester_id r)).

(** [supabase.from('requests').select('*')] as the caller sees it. *)
Definition select_requests (db : database) (now : Z) (uid : option N)
    : list requests.row :=
  filter (λ r, Sql.holds (requests_select_policy db now uid r) = true)
    (tbl_requests db).

(** ** Request lifecycle *)

(** Trigger [update_requests_updated_at]: [NEW.updated_at = now()]. *)
Definition update_updated_at_column (now : Z) (r : requests.row)
    : requests.row :=
  requests.set_updated_at now r.

(** [UPDATE public.requests SET status = 'expired'
     WHERE status = 'open' AND expires_at <= now()], run as the definer. *)
Definition expire_old_requests (now : Z) (db : database) : database :=
  with_requests
    ((λ r,
        if Sql.holds
             (Sql.and3 (Sql.eq3 (col (requests.status r)) (col open))
                (Sql.le3 (col (requests.expires_at r)) (col now)))
        then update_updated_at_column now (requests.set_status expired r)
        else r) <$> tbl_requests db)
    db.

(** [RequestBloodDialog.onSubmit]:
    [supabase.from('requests').insert({...}).select().single()].  The
    client sends neither [status] nor [expires_at]; [new_id] is the value
    of [gen_random_uuid()]. *)
Definition insert_request (uid : option N) (new_id : N) (now : Z)
    (requester_id : N) (blood_group_label requester_name requester_phone
     district state location_description message : string)
    (db : database) : Sql.result (requests.row * database) :=
  match blood_group_in blood_group_label with
  | None => Sql.Error Sql.invalid_text_representation
  | Some bg =>
      let r :=
        {| requests.id := new_id;
           requests.requester_id := requester_id;
           requests.blood_group := bg;
           requests.requester_name := requester_name;
           requests.requester_phone := requester_phone;
           requests.district := district;
           requests.state := state;
           requests.location_description := Some location_description;
           requests.message := Some message;
           requests.status := open;
           requests.expires_at := now + interval_24_hours;
           requests.created_at := now;
           requests.updated_at := now |} in
      if negb (Sql.holds (requests_insert_policy uid r)
               && Sql.holds (requests_select_policy db now uid r))
      then Sql.Error Sql.insufficient_privilege
      else if bool_decide (new_id ∈ requests.id <$> tbl_requests db)
      then Sql.Error Sql.unique_violation
      else if negb (bool_decide (is_Some (tbl_profiles db !! requester_id)))
      then Sql.Error Sql.foreign_key_violation
      else Sql.Ok (r, with_requests (tbl_requests db ++ [r]) db)
  end.

(** [handleCancelRequest] of the dashboard that updates instead of
    deleting: [supabase.from('requests').update({ status: 'cancelled' })
    .eq('id', requestId)], here for any label.  The label is cast to
    [request_status] first.  The WHERE clause reads the row, so the SELECT
    policy applies to the old row next to the UPDATE policy, and both are
    checked again on the new row. *)
Definition update_request_row (db : database) (uid : option N)
    (request_id : N) (s : request_status) (now : Z) (r : requests.row)
    : Sql.result requests.row :=
  if bool_decide (requests.id r = request_id)
     && Sql.holds (requests_select_policy db now uid r)
     && Sql.holds (requests_update_policy uid r)
  then
    let r' := update_updated_at_column now (requests.set_status s r) in
    if Sql.holds (requests_update_policy uid r')
       && Sql.holds (requests_select_policy db now uid r')
    then Sql.Ok r'
    else Sql.Error Sql.insufficient_privilege
  else Sql.Ok r.

Definition update_request_status (uid : option N) (request_id : N)
    (label : string) (now : Z) (db : database) : Sql.result database :=
  match request_status_in label with
  | None => Sql.Error Sql.invalid_text_representation
  | Some s =>
      Sql.bind
        (Sql.for_each_row (update_request_row db uid request_id s now)
           (tbl_requests db))
        (λ rs, Sql.Ok (with_requests rs db))
  end.

Definition handleCancelRequest (user_id : N) (request_id : N) (now : Z)
    (db : database) : Sql.result database :=
  update_request_status (Some user_id) request_id "cancelled" now db.

(** [fetchMyRequests] of the current dashboard: the caller's rows among
    those [get_safe_requests] returns. *)
Definition fetchMyRequests (db : database) (now : Z) (user_id : N)
    : list safe_requests.row :=
  filter (λ row, safe_requests.requester_id row = user_id)
    (get_safe_requests db now (Some user_id)).

(** ** Claims

    The table of the first migration carries [UNIQUE(request_id,
    donor_id)] and a foreign key from [donor_id] to [profiles(user_id)];
    migration 20250925113624 drops the table and creates it again with
    neither.  Both keep the primary key, the foreign key to [requests(id)]
    and the policy [FOR INSERT WITH CHECK (auth.uid() = donor_id)]. *)

Definition claims_insert_policy (uid : option N) (c : claims.row)
    : option bool :=
  Sql.eq3 uid (col (claims.donor_id c)).

Definition claims_pair (c : claims.row) : N * N :=
  (claims.request_id c, claims.donor_id c).

Definition new_claim (new_id : N) (now : Z) (request_id donor_id : N)
    : claims.row :=
  {| claims.id := new_id; claims.request_id := request_id;
     claims.donor_id := donor_id; claims.claimed_at := now |}.

(** Insert into the table of the first migration. *)
Definition insert_claim_20250924 (uid : option N) (new_id : N) (now : Z)
    (request_id donor_id : N) (db : database) : Sql.result database :=
  let c := new_claim new_id now request_id donor_id in
  if negb (Sql.holds (claims_insert_policy uid c))
  then Sql.Error Sql.insufficient_privilege
  else if bool_decide (new_id ∈ claims.id <$> tbl_claims db)
  then Sql.Error Sql.unique_violation
  else if bool_decide (claims_pair c ∈ claims_pair <$> tbl_claims db)
  then Sql.Error Sql.unique_violation
  else if negb (bool_decide (request_id ∈ requests.id <$> tbl_requests db))
  then Sql.Error Sql.foreign_key_violation
  else if negb (bool_decide (is_Some (tbl_profiles db !! donor_id)))
  then Sql.Error Sql.foreign_key_violation
  else Sql.Ok (with_claims (tbl_claims db ++ [c]) db).

(** Insert into the table as migration 20250925113624 leaves it. *)
Definition insert_claim (uid : option N) (new_id : N) (now : Z)
    (request_id donor_id : N) (db : database) : Sql.result database :=
  let c := new_claim new_id now request_id donor_id in
  if negb (Sql.holds (claims_insert_policy uid c))
  then Sql.Error Sql.insufficient_privilege
  else if bool_decide (new_id ∈ claims.id <$> tbl_claims db)
  then Sql.Error Sql.unique_violation
  else if negb (bool_decide (request_id ∈ requests.id <$> tbl_requests db))
  then Sql.Error Sql.foreign_key_violation
  else Sql.Ok (with_claims (tbl_claims db ++ [c]) db).

(** [handleClaimRequest]: [supabase.from('claims').insert({ request_id:
    requestId, donor_id: user.id })]. *)
Definition handleClaimRequest (user_id : N) (new_id : N) (now : Z)
    (request_id : N) (db : database) : Sql.result database :=
  insert_claim (Some user_id) new_id now request_id user_id db.

(** At most one claim per (request, donor) pair. *)
Definition claims_unique (db : database) : Prop :=
  NoDup (claims_pair <$> tbl_claims db).

(** ** Contact requests (migrations 20250929062623 and 20250930130926) *)

(** The two permissive SELECT policies, one for the donor and one for the
    requester, are combined with OR. *)
Definition contact_requests_select_policy (uid : option N)
    (cr : contact_requests.row) : option bool :=
  Sql.or3 (Sql.eq3 uid (col (contact_requests.donor_id cr)))
    (Sql.eq3 uid (col (contact_requests.requester_id cr))).

(** "Users can create contact requests as requesters":
    [FOR INSERT WITH CHECK (auth.uid() = requester_id)] *)
Definition contact_requests_insert_policy (uid : option N)
    (cr : contact_requests.row) : option bool :=
  Sql.eq3 uid (col (contact_requests.requester_id cr)).

(** "Donors can update contact request status":
    [FOR UPDATE USING (auth.uid() = donor_id)] *)
Definition contact_requests_update_policy (uid : option N)
    (cr : contact_requests.row) : option bool :=
  Sql.eq3 uid (col (contact_requests.donor_id cr)).

(** [supabase.from('contact_requests').insert({ request_id, donor_id,
    requester_id, message })]; the other columns take their defaults. *)
Definition insert_contact_request (uid : option N) (new_id : N) (now : Z)
    (request_id donor_id requester_id : N) (message : string)
    (db : database) : Sql.result database :=
  let cr :=
    {| contact_requests.id := new_id;
       contact_requests.request_id := request_id;
       contact_requests.donor_id := donor_id;
       contact_requests.requester_id := requester_id;
       contact_requests.status := "pending";
       contact_requests.message := Some message;
       contact_requests.created_at := now;
       contact_requests.updated_at := now;
       contact_requests.expires_at := now + interval_72_hours |} in
  if negb (Sql.holds (contact_requests_insert_policy uid cr))
  then Sql.Error Sql.insufficient_privilege
  else if negb (contact_requests.status_check cr)
  then Sql.Error Sql.check_violation
  else if bool_decide
            (new_id ∈ contact_requests.id <$> tbl_contact_requests db)
  then Sql.Error Sql.unique_violation
  else if negb (bool_decide (request_id ∈ requests.id <$> tbl_requests db)
                && bool_decide (donor_id ∈ tbl_auth_users db)
                && bool_decide (requester_id ∈ tbl_auth_users db))
  then Sql.Error Sql.foreign_key_violation
  else
    Sql.Ok (with_contact_requests (tbl_contact_requests db ++ [cr]) db).

(** [ContactRequestDialog.onSubmit]: the caller is the requester and
    invites the donor [donorId]. *)
Definition ContactRequestDialog_onSubmit (user_id : N) (new_id : N)
    (now : Z) (requestId donorId : N) (message : string) (db : database)
    : Sql.result database :=
  insert_contact_request (Some user_id) new_id now requestId donorId user_id
    message db.

(** [DonorContactRequestDialog.onSubmit]: the caller is the donor and
    offers help to the requester [requesterId]. *)
Definition DonorContactRequestDialog_onSubmit (user_id : N) (new_id : N)
    (now : Z) (requestId requesterId : N) (message : string)
    (db : database) : Sql.result database :=
  insert_contact_request (Some user_id) new_id now requestId user_id
    requesterId message db.

(** [supabase.from('contact_requests').update({ status }).eq('id',
    requestId)].  A row is updated when it has the id and passes the
    SELECT and UPDATE policies; the trigger stamps [updated_at]; the new
    row is checked against the policies and the CHECK constraint. *)
Definition update_contact_request_row (uid : option N) (id : N)
    (status : string) (now : Z) (cr : contact_requests.row)
    : Sql.result contact_requests.row :=
  if bool_decide (contact_requests.id cr = id)
     && Sql.holds (contact_requests_select_policy uid cr)
     && Sql.holds (contact_requests_update_policy uid cr)
  then
    let cr' :=
      contact_requests.set_updated_at now
        (contact_requests.set_status status cr) in
    if negb (Sql.holds (contact_requests_update_policy uid cr')
             && Sql.holds (contact_requests_select_policy uid cr'))
    then Sql.Error Sql.insufficient_privilege
    else if negb (contact_requests.status_check cr')
    then Sql.Error Sql.check_violation
    else Sql.Ok cr'
  else Sql.Ok cr.

Definition updateRequestStatus (uid : option N) (requestId : N)
    (status : string) (now : Z) (db : database) : Sql.result database :=
  Sql.bind
    (Sql.for_each_row (update_contact_request_row uid requestId status now)
       (tbl_contact_requests db))
    (λ crs, Sql.Ok (with_contact_requests crs db)).

(** The row a status update leaves behind when [uid] sends it. *)
Definition status_updated (uid : option N) (id : N) (status : string)
    (now : Z) (cr : contact_requests.row) : contact_requests.row :=
  if bool_decide (contact_requests.id cr = id)
     && bool_decide (uid = Some (contact_requests.donor_id cr))
  then contact_requests.set_updated_at now
         (contact_requests.set_status status cr)
  else cr.

(** ** A small database used to exercise the statements

    Alice, Bob and Carol have profiles; Dave has an account only.  Alice
    posted two requests, and invited Bob on the first one. *)

Module Sample.

Definition alice : N := 1.
Definition bob : N := 2.
Definition carol : N := 3.
Definition dave : N := 4.

Definition profile (id : N) (name district : string) : profiles.row :=
  {| profiles.id := id; profiles.full_name := name;
     profiles.phone := "555-0000"; profiles.district := district;
     profiles.state := "S"; profiles.blood_group := O_pos;
     profiles.created_at := 0; profiles.updated_at := 0;
     profiles.is_confirmed := Some false |}.

Definition request (id : N) (s : request_status) (expires created : Z)
    : requests.row :=
  {| requests.id := id; requests.requester_id := alice;
     requests.blood_group := O_pos; requests.requester_name := "Alice";
     requests.requester_phone := "555-0100"; requests.district := "X";
     requests.state := "S"; requests.location_description := None;
     requests.message := Some "urgent"; requests.status := s;
     requests.expires_at := expires; requests.created_at := created;
     requests.updated_at := created |}.

Definition open_request : requests.row := request 10 open 1000 100.
Definition stale_request : requests.row := request 11 open 150 50.
Definition claimed_request : requests.row := request 12 claimed 1000 60.

Definition invitation : contact_requests.row :=
  {| contact_requests.id := 50; contact_requests.request_id := 10;
     contact_requests.donor_id := bob;
     contact_requests.requester_id := alice;
     contact_requests.status := "pending";
     contact_requests.message := Some "please help";
     contact_requests.created_at := 120;
     contact_requests.updated_at := 120;
     contact_requests.expires_at := 120 + interval_72_hours |}.

Definition db : database :=
  {| tbl_auth_users := {[alice; bob; carol; dave]};
     tbl_profiles :=
       <[alice := profile 101 "Alice" "X"]>
         (<[bob := profile 102 "Bob" "X"]>
            (<[carol := profile 103 "Carol" "Y"]> ∅));
     tbl_requests := [open_request; stale_request; claimed_request];
     tbl_claims := [];
     tbl_contact_requests := [invitation] |}.

Definition now : Z := 200.

End Sample.

(** ** The two tabs of the dashboard

    [fetchRequests] of the current dashboard keeps the rows of
    [get_safe_requests] that the caller does not own; [fetchMyRequests]
    above keeps the others. *)

Module Dashboard.

Definition fetchRequests (db : database) (now : Z) (user_id : N)
    : list safe_requests.row :=
  filter (λ row, safe_requests.requester_id row ≠ user_id)
    (get_safe_requests db now (Some user_id)).

(** The card of a request shows the phone when [request.requester_phone]
    is truthy: neither null nor the empty string. *)
Definition shows_phone (row : safe_requests.row) : bool :=
  match safe_requests.requester_phone row with
  | Some phone => negb (bool_decide (phone = ""))
  | None => false
  end.

(** [fetchContactRequestCounts]: [counts[cr.request_id] =
    (counts[cr.request_id] || 0) + 1] for each row of
    [supabase.from('contact_requests').select('request_id, status')
    .eq('donor_id', user.id)], read under the SELECT policies. *)
Definition count_row (counts : gmap N nat) (cr : contact_requests.row)
    : gmap N nat :=
  <[contact_requests.request_id cr :=
      S (default 0%nat (counts !! contact_requests.request_id cr))]> counts.

Definition fetchContactRequestCounts (db : database) (user_id : N)
    : gmap N nat :=
  foldl count_row ∅
    (filter (λ cr,
       Sql.holds (contact_requests_select_policy (Some user_id) cr) = true
       ∧ contact_requests.donor_id cr = user_id)
       (tbl_contact_requests db)).

(** [const contactCount = contactRequestCounts[request.id] || 0] *)
Definition contactCount (counts : gmap N nat) (request_id : N) : nat :=
  default 0%nat (counts !! request_id).

End Dashboard.

(** [fetchRequests] of the dashboard that reads the table itself:
    [supabase.from('requests').select('*').eq('status', 'open')
    .gt('expires_at', new Date().toISOString()).neq('requester_id',
    user.id).order('created_at', { ascending: false })], filtered by the
    SELECT policy; [client_now] is the client's clock. *)
Definition fetchRequests_from_table (db : database) (now client_now : Z)
    (user_id : N) : list requests.row :=
  merge_sort created_at_desc
    (filter (λ r, requests.status r = open
                  ∧ client_now < requests.expires_at r
                  ∧ requests.requester_id r ≠ user_id)
       (select_requests db now (Some user_id))).

(** ** Deleting a request

    "Users can delete their own requests": [FOR DELETE USING (auth.uid() =
    requester_id)].  The statement of the current [handleCancelRequest],
    [supabase.from('requests').delete().eq('id', requestId)], reads [id], so
    a row is deleted when it also passes the SELECT policy.  The foreign
    keys of [claims] and [contact_requests] are ON DELETE CASCADE. *)

Definition requests_delete_policy (uid : option N) (r : requests.row)
    : option bool :=
  Sql.eq3 uid (col (requests.requester_id r)).

Definition delete_target (db : database) (now : Z) (uid : option N)
    (request_id : N) (r : requests.row) : bool :=
  bool_decide (requests.id r = request_id)
  && Sql.holds (requests_select_policy db now uid r)
  && Sql.holds (requests_delete_policy uid r).

Definition delete_request (uid : option N) (request_id : N) (now : Z)
    (db : database) : database :=
  let deleted :=
    requests.id <$>
      filter (λ r, delete_target db now uid request_id r = true)
        (tbl_requests db) in
  {| tbl_auth_users := tbl_auth_users db;
     tbl_profiles := tbl_profiles db;
     tbl_requests :=
       filter (λ r, delete_target db now uid request_id r = false)
         (tbl_requests db);
     tbl_claims :=
       filter (λ c, claims.request_id c ∉ deleted) (tbl_claims db);
     tbl_contact_requests :=
       filter (λ cr, contact_requests.request_id cr ∉ deleted)
         (tbl_contact_requests db) |}.

Definition handleCancelRequest_delete (user_id : N) (request_id : N)
    (now : Z) (db : database) : database :=
  delete_request (Some user_id) request_id now db.

(** ** get_safe_profile_info (migration 20250929062623)

    [SELECT p.id, ..., p.is_confirmed FROM profiles p
     WHERE p.user_id = profile_user_id AND p.district = (SELECT
     profiles.district FROM profiles WHERE profiles.user_id = auth.uid())];
    [user_id] is the key of the table, so at most one row qualifies. *)

Module safe_profiles.
Record row := {
  id : N;
  user_id : N;
  full_name : string;
  district : string;
  state : string;
  blood_group : blood_group;
  is_confirmed : option bool
}.
End safe_profiles.

Definition get_safe_profile_info (db : database) (uid : option N)
    (profile_user_id : N) : list safe_profiles.row :=
  match tbl_profiles db !! profile_user_id with
  | Some p =>
      if Sql.holds
           (Sql.eq3 (col (profiles.district p)) (caller_district db uid))
      then
        [{| safe_profiles.id := profiles.id p;
            safe_profiles.user_id := profile_user_id;
            safe_profiles.full_name := profiles.full_name p;
            safe_profiles.district := profiles.district p;
            safe_profiles.state := profiles.state p;
            safe_profiles.blood_group := profiles.blood_group p;
            safe_profiles.is_confirmed := profiles.is_confirmed p |}]
      else []
  | None => []
  end.

(** ** Sign-up

    Trigger [on_auth_user_created] runs [handle_new_user] after the insert
    into [auth.users]; [raw_user_meta_data ->> key] is NULL for a missing
    key.  An error in the trigger aborts the insert of the user. *)

Definition with_profiles (ps : gmap N profiles.row) (db : database) :=
  {| tbl_auth_users := tbl_auth_users db; tbl_profiles := ps;
     tbl_requests := tbl_requests db; tbl_claims := tbl_claims db;
     tbl_contact_requests := tbl_contact_requests db |}.

Definition with_auth_users (us : gset N) (db : database) :=
  {| tbl_auth_users := us; tbl_profiles := tbl_profiles db;
     tbl_requests := tbl_requests db; tbl_claims := tbl_claims db;
     tbl_contact_requests := tbl_contact_requests db |}.

Definition coalesce (v : option string) (d : string) : string := default d v.

Definition handle_new_user (NEW_id profile_id : N)
    (raw_user_meta_data : gmap string string) (now : Z) (db : database)
    : Sql.result database :=
  match
    blood_group_in (coalesce (raw_user_meta_data !! "blood_group") "O+")
  with
  | None => Sql.Error Sql.invalid_text_representation
  | Some bg =>
      let p :=
        {| profiles.id := profile_id;
           profiles.full_name :=
             coalesce (raw_user_meta_data !! "full_name") "";
           profiles.phone := coalesce (raw_user_meta_data !! "phone") "";
           profiles.district :=
             coalesce (raw_user_meta_data !! "district") "";
           profiles.state := coalesce (raw_user_meta_data !! "state") "";
           profiles.blood_group := bg;
           profiles.created_at := now;
           profiles.updated_at := now;
           profiles.is_confirmed := Some false |} in
      if bool_decide
           (profile_id ∈ profiles.id <$> (map_to_list (tbl_profiles db)).*2)
      then Sql.Error Sql.unique_violation
      else if bool_decide (is_Some (tbl_profiles db !! NEW_id))
      then Sql.Error Sql.unique_violation
      else if negb (bool_decide (NEW_id ∈ tbl_auth_users db))
      then Sql.Error Sql.foreign_key_violation
      else Sql.Ok (with_profiles (<[NEW_id := p]> (tbl_profiles db)) db)
  end.

(** The insert into [auth.users] followed by the trigger. *)
Definition insert_auth_user (new_user_id profile_id : N)
    (raw_user_meta_data : gmap string string) (now : Z) (db : database)
    : Sql.result database :=
  if bool_decide (new_user_id ∈ tbl_auth_users db)
  then Sql.Error Sql.unique_violation
  else
    handle_new_user new_user_id profile_id raw_user_meta_data now
      (with_auth_users ({[new_user_id]} ∪ tbl_auth_users db) db).

(** [AuthForm.onSignUp]: the metadata sent with [supabase.auth.signUp]. *)
Definition onSignUp_metadata (fullName phone district state bloodGroup
    : string) : gmap string string :=
  <["full_name" := fullName]>
    (<["phone" := phone]>
       (<["district" := district]>
          (<["state" := state]> (<["blood_group" := bloodGroup]> ∅)))).

(** The labels offered by the forms ([bloodGroups] of [AuthForm] and
    [RequestBloodDialog]), by [bloodGroupSchema], and listed in
    [Constants.public.Enums] of the generated types. *)
Definition bloodGroups : list string :=
  ["O+"; "O-"; "A+"; "A-"; "B+"; "B-"; "AB+"; "AB-"].

Definition bloodGroupSchema (label : string) : bool :=
  bool_decide (label ∈ ["A+"; "A-"; "B+"; "B-"; "AB+"; "AB-"; "O+"; "O-"]).

Definition Constants_blood_group : list string :=
  ["O+"; "O-"; "A+"; "A-"; "B+"; "B-"; "AB+"; "AB-"].

Definition Constants_request_status : list string :=
  ["open"; "claimed"; "fulfilled"; "expired"].

Definition blood_group_out (b : blood_group) : string :=
  match b with
  | O_pos => "O+" | O_neg => "O-"
  | A_pos => "A+" | A_neg => "A-"
  | B_pos => "B+" | B_neg => "B-"
  | AB_pos => "AB+" | AB_neg => "AB-"
  end.

(** ** Statements of the client as transitions of the database

    A statement that raises an error is rolled back and leaves the
    database as it was. *)

Inductive statement :=
| SignUp (new_user_id profile_id : N)
    (fullName phone district state bloodGroup : string)
| RequestBlood (user_id new_id : N)
    (bloodGroup requesterName requesterPhone district state
     locationDescription message : string)
| CancelByDelete (user_id request_id : N)
| CancelByUpdate (user_id request_id : N)
| Claim (user_id new_id request_id : N)
| Invite (user_id new_id requestId donorId : N) (message : string)
| Offer (user_id new_id requestId requesterId : N) (message : string)
| UpdateStatus (uid : option N) (requestId : N) (status : string)
| ExpireOldRequests.

Definition or_unchanged (db : database) (res : Sql.result database)
    : database :=
  match res with
  | Sql.Ok db' => db'
  | Sql.Error _ => db
  end.

Definition run (s : statement) (now : Z) (db : database) : database :=
  match s with
  | SignUp u pid fullName phone district state bloodGroup =>
      or_unchanged db
        (insert_auth_user u pid
           (onSignUp_metadata fullName phone district state bloodGroup)
           now db)
  | RequestBlood u new_id bg name phone district state location message =>
      match
        insert_request (Some u) new_id now u bg name phone district state
          location message db
      with
      | Sql.Ok (_, db') => db'
      | Sql.Error _ => db
      end
  | CancelByDelete u rid => handleCancelRequest_delete u rid now db
  | CancelByUpdate u rid => or_unchanged db (handleCancelRequest u rid now db)
  | Claim u new_id rid =>
      or_unchanged db (handleClaimRequest u new_id now rid db)
  | Invite u new_id rid donor message =>
      or_unchanged db
        (ContactRequestDialog_onSubmit u new_id now rid donor message db)
  | Offer u new_id rid requester message =>
      or_unchanged db
        (DonorContactRequestDialog_onSubmit u new_id now rid requester
           message db)
  | UpdateStatus uid id status =>
      or_unchanged db (updateRequestStatus uid id status now db)
  | ExpireOldRequests => expire_old_requests now db
  end.

Definition run_all (script : list (statement * Z)) (db : database)
    : database :=
  foldl (λ d step, run step.1 step.2 d) db script.

Definition empty_database : database :=
  {| tbl_auth_users := ∅; tbl_profiles := ∅; tbl_requests := [];
     tbl_claims := []; tbl_contact_requests := [] |}.

(** The constraints of the schema: primary keys, the UNIQUE [user_id] of
    [profiles] (kept by the map), foreign keys and the CHECK on
    [contact_requests.status]. *)
Record consistent (db : database) : Prop := {
  profiles_pkey :
    NoDup (profiles.id <$> (map_to_list (tbl_profiles db)).*2);
  requests_pkey : NoDup (requests.id <$> tbl_requests db);
  claims_pkey : NoDup (claims.id <$> tbl_claims db);
  contact_requests_pkey :
    NoDup (contact_requests.id <$> tbl_contact_requests db);
  profiles_user_id_fkey :
    ∀ u, is_Some (tbl_profiles db !! u) → u ∈ tbl_auth_users db;
  requests_requester_id_fkey :
    Forall (λ r, is_Some (tbl_profiles db !! requests.requester_id r))
      (tbl_requests db);
  claims_request_id_fkey :
    Forall (λ c, claims.request_id c ∈ requests.id <$> tbl_requests db)
      (tbl_claims db);
  contact_requests_fkeys :
    Forall
      (λ cr,
         contact_requests.request_id cr ∈ requests.id <$> tbl_requests db
         ∧ contact_requests.donor_id cr ∈ tbl_auth_users db
         ∧ contact_requests.requester_id cr ∈ tbl_auth_users db)
      (tbl_contact_requests db);
  contact_requests_status_check :
    Forall (λ cr, contact_requests.status_check cr = true)
      (tbl_contact_requests db)
}.

(** ** Device tokens (second part of migration 20250929062623)

    [token] is UNIQUE over the whole table; the four policies on
    [user_tokens] all read [auth.uid() = user_id]. *)

Module user_tokens.
Record row := {
  id : N;
  user_id : N;
  token : string;
  platform : string;
  created_at : Z;
  updated_at : Z
}.
End user_tokens.

Definition user_tokens_policy (uid : option N) (tk : user_tokens.row)
    : option bool :=
  Sql.eq3 uid (col (user_tokens.user_id tk)).

(** [supabase.from('user_tokens').select('id').eq('user_id', user.id)
    .eq('token', token)] as the caller sees it. *)
Definition own_token_rows (user_id : N) (token : string)
    (tokens : list user_tokens.row) : list user_tokens.row :=
  filter (λ tk, Sql.holds (user_tokens_policy (Some user_id) tk) = true
                ∧ user_tokens.user_id tk = user_id
                ∧ user_tokens.token tk = token)
    tokens.

(** [registerDeviceToken]: nothing is written when [.maybeSingle()] finds
    the row; otherwise [{ user_id, token, platform: 'android' }] is
    inserted. *)
Definition registerDeviceToken (user_id : N) (token : string) (new_id : N)
    (now : Z) (tokens : list user_tokens.row)
    : Sql.result (list user_tokens.row) :=
  match own_token_rows user_id token tokens with
  | [_] => Sql.Ok tokens
  | _ =>
      let tk :=
        {| user_tokens.id := new_id; user_tokens.user_id := user_id;
           user_tokens.token := token; user_tokens.platform := "android";
           user_tokens.created_at := now; user_tokens.updated_at := now |} in
      if negb (Sql.holds (user_tokens_policy (Some user_id) tk))
      then Sql.Error Sql.insufficient_privilege
      else if bool_decide (new_id ∈ user_tokens.id <$> tokens)
      then Sql.Error Sql.unique_violation
      else if bool_decide (token ∈ user_tokens.token <$> tokens)
      then Sql.Error Sql.unique_violation
      else Sql.Ok (tokens ++ [tk])%list
  end.

(** [unregisterDeviceToken]:
    [supabase.from('user_tokens').delete().eq('user_id', user.id)
    .eq('token', token)]. *)
Definition unregisterDeviceToken (user_id : N) (token : string)
    (tokens : list user_tokens.row) : list user_tokens.row :=
  filter (λ tk, ¬ (Sql.holds (user_tokens_policy (Some user_id) tk) = true
                   ∧ user_tokens.user_id tk = user_id
                   ∧ user_tokens.token tk = token))
    tokens.

(** [checkTokenRegistration]: [!!data] of the [.maybeSingle()] read. *)
Definition checkTokenRegistration (user_id : N) (token : string)
    (tokens : list user_tokens.row) : bool :=
  match own_token_rows user_id token tokens with
  | [_] => true
  | _ => false
  end.

(** ** send-blood-request-notifications

    The function reads with the service role, so no policy applies.  The
    handler is followed from its first line to the test of
    [FIREBASE_SERVICE_ACCOUNT_JSON] (index.ts:19-104).  What it does after
    that test, parsing the service account, obtaining an access token and
    sending to each token, is not modelled: [parses_service_account] is the
    handler reaching [JSON.parse] with the text of the variable, the request
    and the tokens it has read. *)

Module Notify.

Inductive failure :=
| request_id_required
| failed_to_fetch_request
| firebase_not_configured.

Inductive outcome :=
| preflight
| no_eligible_users
| no_device_tokens
| internal_error (e : failure)
| parses_service_account (serviceAccountJson : string)
    (request : requests.row) (userTokens : list user_tokens.row).

(** [.from('requests').select('*').eq('id', requestId).single()] *)
Definition single_request (db : database) (requestId : N)
    : option requests.row :=
  match filter (λ r, requests.id r = requestId) (tbl_requests db) with
  | [r] => Some r
  | _ => None
  end.

(** [.from('profiles').select('user_id, full_name')
    .eq('district', request.district).eq('blood_group',
    request.blood_group).neq('user_id', request.requester_id)] *)
Definition eligibleUsers (db : database) (request : requests.row)
    : list (N * profiles.row) :=
  filter (λ up, profiles.district up.2 = requests.district request
                ∧ profiles.blood_group up.2 = requests.blood_group request
                ∧ up.1 ≠ requests.requester_id request)
    (map_to_list (tbl_profiles db)).

(** [.from('user_tokens').select('token, user_id').in('user_id', userIds)
    .eq('platform', 'android')] *)
Definition userTokens (userIds : list N) (tokens : list user_tokens.row)
    : list user_tokens.row :=
  filter (λ tk, user_tokens.user_id tk ∈ userIds
                ∧ user_tokens.platform tk = "android")
    tokens.

(** [!serviceAccountJson] holds for a variable that is unset and for one
    that is set to the empty string. *)
Definition serve (is_options : bool) (requestId : option N)
    (db : database) (tokens : list user_tokens.row)
    (FIREBASE_SERVICE_ACCOUNT_JSON : option string) : outcome :=
  if is_options then preflight
  else
    match requestId with
    | None => internal_error request_id_required
    | Some id =>
        match single_request db id with
        | None => internal_error failed_to_fetch_request
        | Some request =>
            match eligibleUsers db request with
            | [] => no_eligible_users
            | users =>
                match userTokens users.*1 tokens with
                | [] => no_device_tokens
                | found =>
                    match FIREBASE_SERVICE_ACCOUNT_JSON with
                    | None => internal_error firebase_not_configured
                    | Some serviceAccountJson =>
                        if bool_decide (serviceAccountJson = "")
                        then internal_error firebase_not_configured
                        else
                          parses_service_account serviceAccountJson
                            request found
                    end
                end
            end
        end
    end.

End Notify.

(** Device tokens for the sample database: Alice and Bob on Android, Carol
    on another platform. *)

Module SampleTokens.

Definition device (id user_id : N) (token platform : string)
    : user_tokens.row :=
  {| user_tokens.id := id; user_tokens.user_id := user_id;
     user_tokens.token := token; user_tokens.platform := platform;
     user_tokens.created_at := 0; user_tokens.updated_at := 0 |}.

Definition tokens : list user_tokens.row :=
  [device 900 Sample.alice "fcm-alice" "android";
   device 901 Sample.bob "fcm-bob" "android";
   device 902 Sample.carol "fcm-carol" "ios"].

End SampleTokens.

(** ** contactRequestSchema (validations.ts)

    [z.string().trim().min(10).max(500)] on the message of both dialogs.  A
    JavaScript string is its sequence of UTF-16 code units; [trim] removes
    white space and line terminators at both ends, and the length checks
    run on the trimmed string, which is also the parsed value. *)

Module Validation.

Definition is_white_space (c : N) : bool :=
  bool_decide
    (c ∈ [9; 10; 11; 12; 13; 32; 160; 5760; 8232; 8233; 8239; 8287; 12288;
          65279]%N)
  || (8192 <=? c)%N && (c <=? 8202)%N.

Fixpoint trim_start (s : list N) : list N :=
  match s with
  | [] => []
  | c :: rest => if is_white_space c then trim_start rest else s
  end.

Definition trim (s : list N) : list N :=
  reverse (trim_start (reverse (trim_start s))).

Inductive issue := too_small | too_big.

Definition contactRequestSchema (message : list N)
    : issue + list N :=
  let parsed := trim message in
  if bool_decide (length parsed < 10)%nat then inl too_small
  else if bool_decide (500 < length parsed)%nat then inl too_big
  else inr parsed.

End Validation.

(** ** Editing a profile

    [Profile.onSubmit]: [supabase.from('profiles').update({ full_name,
    phone, district, state, blood_group }).eq('user_id', user.id)] under
    "Users can update their own profile" and "Users can view own profile
    fully", both [auth.uid() = user_id]; the trigger
    [update_profiles_updated_at] stamps the row. *)

Definition profiles_own_policy (uid : option N) (user_id : N)
    : option bool :=
  Sql.eq3 uid (col user_id).

Definition update_profile (uid : option N) (target : N)
    (full_name phone district state blood_group : string) (now : Z)
    (db : database) : Sql.result database :=
  match blood_group_in blood_group with
  | None => Sql.Error Sql.invalid_text_representation
  | Some bg =>
      if Sql.holds (profiles_own_policy uid target)
      then
        Sql.Ok
          (with_profiles
             (alter
                (λ p,
                   {| profiles.id := profiles.id p;
                      profiles.full_name := full_name;
                      profiles.phone := phone;
                      profiles.district := district;
                      profiles.state := state;
                      profiles.blood_group := bg;
                      profiles.created_at := profiles.created_at p;
                      profiles.updated_at := now;
                      profiles.is_confirmed := profiles.is_confirmed p |})
                target (tbl_profiles db))
             db)
      else Sql.Ok db
  end.

Definition Profile_onSubmit (user_id : N)
    (full_name phone district state blood_group : string) (now : Z)
    (db : database) : Sql.result database :=
  update_profile (Some user_id) user_id full_name phone district state
    blood_group now db.

(** * Properties *)

(** ** Three-valued conditions as booleans *)

Section holds.

Context {A : Type} `{EqDecision A}.

Lemma holds_and3 a b :
  Sql.holds (Sql.and3 a b) = Sql.holds a && Sql.holds b.
Proof. by destruct a as [[]|], b as [[]|]. Qed.

Lemma holds_or3 a b :
  Sql.holds (Sql.or3 a b) = Sql.holds a || Sql.holds b.
Proof. by destruct a as [[]|], b as [[]|]. Qed.

Lemma holds_eq3 (x y : A) :
  Sql.holds (Sql.eq3 (Some x) (Some y)) = bool_decide (x = y).
Proof. simpl. by destruct (bool_decide (x = y)). Qed.

Lemma holds_ne3 (x y : A) :
  Sql.holds (Sql.ne3 (Some x) (Some y)) = negb (bool_decide (x = y)).
Proof. simpl. by destruct (bool_decide (x = y)). Qed.

Lemma holds_eq3_null_r (a : option A) : Sql.holds (Sql.eq3 a None) = false.
Proof. by destruct a. Qed.

Lemma holds_eq3_null_l (a : option A) : Sql.holds (Sql.eq3 None a) = false.
Proof. done. Qed.

End holds.

Lemma holds_gt3 (x y : Z) :
  Sql.holds (Sql.gt3 (Some x) (Some y)) = bool_decide (y < x).
Proof. simpl. by destruct (bool_decide (y < x)). Qed.

Lemma holds_le3 (x y : Z) :
  Sql.holds (Sql.le3 (Some x) (Some y)) = bool_decide (x <= y).
Proof. simpl. by destruct (bool_decide (x <= y)). Qed.

(** Membership in a list given by its elements. *)
Ltac solve_elem_of :=
  repeat first [apply list_elem_of_here | apply list_elem_of_further].

Lemma for_each_row_total {A} (f : A → Sql.result A) (g : A → A) rows :
  (∀ r, f r = Sql.Ok (g r)) → Sql.for_each_row f rows = Sql.Ok (g <$> rows).
Proof.
  intros Hf. induction rows as [|r rows IH]; [done|].
  simpl. rewrite Hf. simpl. by rewrite IH.
Qed.

(** ** What [get_safe_requests] returns *)

Lemma safe_where_holds db now u r :
  Sql.holds (safe_where db now (Some u) r) =
    bool_decide (requests.status r = open)
    && bool_decide (now < requests.expires_at r)
    && (Sql.holds (district_blood_match db (Some u) r)
        && negb (bool_decide (requests.requester_id r = u))
        || bool_decide (requests.requester_id r = u)).
Proof.
  unfold safe_where.
  by rewrite !holds_and3, holds_or3, holds_and3, !holds_eq3, holds_gt3,
    holds_ne3.
Qed.

Lemma policy_agrees_with_safe_where db now uid r :
  requests_select_policy db now uid r = safe_where db now uid r.
Proof. done. Qed.

Lemma elem_of_get_safe_requests db now uid row :
  row ∈ get_safe_requests db now uid ↔
  ∃ r, row = safe_select db uid r ∧ r ∈ tbl_requests db
       ∧ Sql.holds (safe_where db now uid r) = true.
Proof.
  unfold get_safe_requests. rewrite list_elem_of_fmap.
  setoid_rewrite merge_sort_Permutation.
  setoid_rewrite list_elem_of_filter.
  split; intros (r & Hrow & H1 & H2); exists r; tauto.
Qed.

Lemma has_approved_contact_iff db u r :
  has_approved_contact db (Some u) r = true ↔
  ∃ cr, cr ∈ tbl_contact_requests db
        ∧ contact_requests.request_id cr = requests.id r
        ∧ contact_requests.donor_id cr = u
        ∧ contact_requests.status cr = "approved".
Proof.
  unfold has_approved_contact. rewrite existsb_exists.
  setoid_rewrite <- list_elem_of_In. unfold approved_contact.
  setoid_rewrite holds_and3. setoid_rewrite holds_and3.
  setoid_rewrite holds_eq3. setoid_rewrite andb_true_iff.
  setoid_rewrite andb_true_iff. setoid_rewrite bool_decide_eq_true.
  split; intros (cr & Hcr); exists cr; tauto.
Qed.

Lemma safe_phone_is_Some db u r :
  is_Some (safe_phone db (Some u) r) ↔
  requests.requester_id r = u ∨ has_approved_contact db (Some u) r = true.
Proof.
  unfold safe_phone. rewrite holds_eq3.
  case_bool_decide as Hown.
  - split; [by left | by eauto].
  - destruct (has_approved_contact db (Some u) r).
    + split; [by right | by eauto].
    + split; [by intros [? ?] | by intros [? | ?]].
Qed.

(** ** Status updates on contact requests *)

Lemma holds_update_policy uid cr :
  Sql.holds (contact_requests_update_policy uid cr) =
    bool_decide (uid = Some (contact_requests.donor_id cr)).
Proof.
  unfold contact_requests_update_policy. destruct uid as [u|]; [|done].
  rewrite holds_eq3.
  destruct (decide (u = contact_requests.donor_id cr)) as [->|Hne].
  - by rewrite !bool_decide_eq_true_2.
  - rewrite !bool_decide_eq_false_2; [done|congruence|done].
Qed.

Lemma donor_passes_select_policy uid cr :
  Sql.holds (contact_requests_update_policy uid cr) = true →
  Sql.holds (contact_requests_select_policy uid cr) = true.
Proof.
  unfold contact_requests_select_policy, contact_requests_update_policy.
  intros Hu. by rewrite holds_or3, Hu.
Qed.

Lemma update_contact_request_row_ok uid id status now cr :
  status ∈ ["pending"; "approved"; "declined"; "expired"] →
  update_contact_request_row uid id status now cr =
    Sql.Ok (status_updated uid id status now cr).
Proof.
  intros Hst. unfold update_contact_request_row, status_updated.
  set (cr' := contact_requests.set_updated_at now
                (contact_requests.set_status status cr)).
  assert (Hpol : contact_requests_update_policy uid cr'
                 = contact_requests_update_policy uid cr) by done.
  assert (Hchk : contact_requests.status_check cr' = true).
  { unfold contact_requests.status_check. simpl.
    by rewrite bool_decide_eq_true_2. }
  rewrite <- holds_update_policy.
  destruct (bool_decide (contact_requests.id cr = id)); simpl; [|done].
  destruct (Sql.holds (contact_requests_update_policy uid cr)) eqn:Hu.
  - rewrite (donor_passes_select_policy _ _ Hu). simpl.
    rewrite Hpol, Hu, donor_passes_select_policy by by rewrite Hpol.
    simpl. by rewrite Hchk.
  - by rewrite andb_false_r.
Qed.

Lemma updateRequestStatus_ok uid id status now db :
  status ∈ ["pending"; "approved"; "declined"; "expired"] →
  updateRequestStatus uid id status now db =
    Sql.Ok (with_contact_requests
              (status_updated uid id status now <$> tbl_contact_requests db)
              db).
Proof.
  intros Hst. unfold updateRequestStatus.
  rewrite (for_each_row_total _ (status_updated uid id status now)); [done|].
  intros cr. by apply update_contact_request_row_ok.
Qed.

Lemma status_updated_other_donor uid id status now cr :
  uid ≠ Some (contact_requests.donor_id cr) →
  status_updated uid id status now cr = cr.
Proof.
  intros Hne. unfold status_updated.
  rewrite (bool_decide_eq_false_2 _ Hne). by rewrite andb_false_r.
Qed.

Lemma status_updated_by_donor id status now cr :
  contact_requests.id cr = id →
  status_updated (Some (contact_requests.donor_id cr)) id status now cr =
    contact_requests.set_updated_at now
      (contact_requests.set_status status cr).
Proof.
  intros Hid. unfold status_updated.
  by rewrite !bool_decide_eq_true_2.
Qed.

Lemma status_updated_keys uid id status now cr :
  contact_requests.request_id (status_updated uid id status now cr) =
    contact_requests.request_id cr
  ∧ contact_requests.donor_id (status_updated uid id status now cr) =
      contact_requests.donor_id cr.
Proof. unfold status_updated. by case_match. Qed.

(** Another caller's approved contact requests are the same before and
    after [u] updates a status. *)
Lemma has_approved_contact_other db u v id status now r :
  v ≠ u →
  has_approved_contact
    (with_contact_requests
       (status_updated (Some u) id status now <$> tbl_contact_requests db)
       db) (Some v) r
  = has_approved_contact db (Some v) r.
Proof.
  intros Hne. unfold has_approved_contact. simpl.
  induction (tbl_contact_requests db) as [|cr crs IH]; [done|].
  rewrite fmap_cons. cbn [existsb]. rewrite IH. f_equal.
  destruct (decide (contact_requests.donor_id cr = u)) as [Hd|Hd].
  - unfold approved_contact.
    destruct (status_updated_keys (Some u) id status now cr) as [Hr Hk].
    rewrite !holds_and3, !holds_eq3, Hr, Hk, Hd.
    rewrite (bool_decide_eq_false_2 (u = v)) by done.
    by rewrite !andb_false_r.
  - rewrite status_updated_other_donor; [done|congruence].
Qed.

Lemma safe_select_after_update db u v id status now r :
  v ≠ u →
  safe_select
    (with_contact_requests
       (status_updated (Some u) id status now <$> tbl_contact_requests db)
       db) (Some v) r
  = safe_select db (Some v) r.
Proof.
  intros Hne. unfold safe_select, safe_phone.
  by rewrite has_approved_contact_other.
Qed.

Lemma safe_phone_value db uid r :
  is_Some (safe_phone db uid r) →
  safe_phone db uid r = Some (requests.requester_phone r).
Proof.
  unfold safe_phone. intros [phone Hphone].
  by repeat case_match.
Qed.

Lemma safe_select_shares_columns db uid r :
  shares_columns r (safe_select db uid r).
Proof. by repeat split. Qed.

(** C1: a row returned to caller [u] by [get_safe_requests] is a stored
    request with its columns unchanged, and it carries a phone number
    exactly when [u] owns the request or an approved contact request names
    [u] as its donor; the number it then carries is the stored phone of that
    request.  Once the donor of a contact request approves it, the donor's
    next read shows the stored phone of that request, and what every other
    caller reads is the same as before. *)
Theorem get_safe_requests_phone_by_approval :
  (∀ db now u row,
     row ∈ get_safe_requests db now (Some u) →
     ∃ r,
       r ∈ tbl_requests db
       ∧ shares_columns r row
       ∧ (is_Some (safe_requests.requester_phone row) ↔
            safe_requests.requester_id row = u
            ∨ ∃ cr, cr ∈ tbl_contact_requests db
                    ∧ contact_requests.request_id cr = safe_requests.id row
                    ∧ contact_requests.donor_id cr = u
                    ∧ contact_requests.status cr = "approved")
       ∧ (is_Some (safe_requests.requester_phone row) →
          safe_requests.requester_phone row
          = Some (requests.requester_phone r)))
  ∧ (∀ db now t cr,
       cr ∈ tbl_contact_requests db →
       ∃ db',
         updateRequestStatus (Some (contact_requests.donor_id cr))
           (contact_requests.id cr) "approved" t db = Sql.Ok db'
         ∧ (∀ row,
              row ∈ get_safe_requests db' now
                      (Some (contact_requests.donor_id cr)) →
              safe_requests.id row = contact_requests.request_id cr →
              ∃ r,
                r ∈ tbl_requests db
                ∧ shares_columns r row
                ∧ safe_requests.requester_phone row
                  = Some (requests.requester_phone r))
         ∧ (∀ v, v ≠ contact_requests.donor_id cr →
              get_safe_requests db' now (Some v)
              = get_safe_requests db now (Some v))).
Proof.
  split.
  - intros db now u row (r & -> & Hr & _)%elem_of_get_safe_requests.
    exists r. split; [done|].
    split; [apply safe_select_shares_columns|].
    cbn [safe_select safe_requests.requester_phone safe_requests.id
         safe_requests.requester_id].
    split; [|apply safe_phone_value].
    rewrite safe_phone_is_Some. by rewrite has_approved_contact_iff.
  - intros db now t cr Hcr. eexists. split; [|split].
    + apply updateRequestStatus_ok. solve_elem_of.
    + intros row (r & -> & Hr & _)%elem_of_get_safe_requests Hid.
      exists r. split; [exact Hr|].
      split; [apply safe_select_shares_columns|].
      cbn [safe_select safe_requests.requester_phone safe_requests.id] in *.
      apply safe_phone_value, safe_phone_is_Some. right.
      apply has_approved_contact_iff.
      exists (status_updated (Some (contact_requests.donor_id cr))
                (contact_requests.id cr) "approved" t cr).
      split; [by apply list_elem_of_fmap_2|].
      by rewrite status_updated_by_donor.
    + intros v Hv. unfold get_safe_requests.
      apply list_fmap_ext. intros i r _.
      by apply safe_select_after_update.
Qed.

Lemma get_safe_requests_phone_by_approval_witness :
  (∃ r,
     r ∈ tbl_requests Sample.db
     ∧ shares_columns r
         (safe_select Sample.db (Some Sample.bob) Sample.open_request)
     ∧ (is_Some (safe_phone Sample.db (Some Sample.bob) Sample.open_request)
        ↔ Sample.alice = Sample.bob
          ∨ ∃ cr, cr ∈ tbl_contact_requests Sample.db
                  ∧ contact_requests.request_id cr = 10%N
                  ∧ contact_requests.donor_id cr = Sample.bob
                  ∧ contact_requests.status cr = "approved")
     ∧ (is_Some (safe_phone Sample.db (Some Sample.bob) Sample.open_request)
        → safe_phone Sample.db (Some Sample.bob) Sample.open_request
          = Some (requests.requester_phone r)))
  ∧ ∃ db',
      updateRequestStatus (Some Sample.bob) 50 "approved" 300 Sample.db
      = Sql.Ok db'
      ∧ safe_requests.requester_phone
          <$> get_safe_requests Sample.db Sample.now (Some Sample.bob)
        = [None]
      ∧ safe_requests.requester_phone
          <$> get_safe_requests db' Sample.now (Some Sample.bob)
        = [Some "555-0100"]
      ∧ (∀ row,
           row ∈ get_safe_requests db' Sample.now (Some Sample.bob) →
           safe_requests.id row = 10%N →
           ∃ r,
             r ∈ tbl_requests Sample.db
             ∧ shares_columns r row
             ∧ safe_requests.requester_phone row
               = Some (requests.requester_phone r))
      ∧ (∀ v, v ≠ Sample.bob →
           get_safe_requests db' Sample.now (Some v)
           = get_safe_requests Sample.db Sample.now (Some v)).
Proof.
  split.
  - apply (proj1 get_safe_requests_phone_by_approval Sample.db Sample.now
             Sample.bob
             (safe_select Sample.db (Some Sample.bob) Sample.open_request)).
    apply elem_of_get_safe_requests. exists Sample.open_request.
    split; [reflexivity|]. split; [|vm_compute; reflexivity].
    apply list_elem_of_here.
  - destruct (proj2 get_safe_requests_phone_by_approval Sample.db Sample.now
                300 Sample.invitation)
      as (db' & Hrun & Hphone & Hothers); [apply list_elem_of_here|].
    exists db'. split; [exact Hrun|].
    split; [vm_compute; reflexivity|].
    split; [|split; [exact Hphone | exact Hothers]].
    clear Hphone Hothers. vm_compute in Hrun. injection Hrun as <-.
    vm_compute. reflexivity.
Defined.

(** ** Which requests a caller sees *)

Lemma caller_with_profile db u p :
  tbl_profiles db !! u = Some p →
  caller_district db (Some u) = Some (profiles.district p)
  ∧ caller_blood_group db (Some u) = Some (profiles.blood_group p).
Proof.
  intros Hp. unfold caller_district, caller_blood_group, caller_profile.
  simpl. by rewrite Hp.
Qed.

Lemma caller_without_profile db u :
  tbl_profiles db !! u = None →
  caller_district db (Some u) = None
  ∧ caller_blood_group db (Some u) = None.
Proof.
  intros Hp. unfold caller_district, caller_blood_group, caller_profile.
  simpl. by rewrite Hp.
Qed.

Lemma district_blood_match_holds db u p r :
  tbl_profiles db !! u = Some p →
  Sql.holds (district_blood_match db (Some u) r) =
    bool_decide (requests.district r = profiles.district p)
    && bool_decide (requests.blood_group r = profiles.blood_group p).
Proof.
  intros [Hd Hb]%caller_with_profile. unfold district_blood_match.
  by rewrite Hd, Hb, holds_and3, !holds_eq3.
Qed.

(** The WHERE clause reads only columns that the result keeps. *)
Lemma safe_where_reads_selected db now uid r r' :
  safe_select db uid r = safe_select db uid r' →
  safe_where db now uid r = safe_where db now uid r'.
Proof.
  intros Heq. unfold safe_where, district_blood_match.
  pose proof (f_equal safe_requests.status Heq) as Hs.
  pose proof (f_equal safe_requests.expires_at Heq) as He.
  pose proof (f_equal safe_requests.district Heq) as Hd.
  pose proof (f_equal safe_requests.blood_group Heq) as Hb.
  pose proof (f_equal safe_requests.requester_id Heq) as Hr.
  simpl in *. by rewrite Hs, He, Hd, Hb, Hr.
Qed.

Lemma safe_select_returned db now uid r :
  r ∈ tbl_requests db →
  safe_select db uid r ∈ get_safe_requests db now uid ↔
  Sql.holds (safe_where db now uid r) = true.
Proof.
  intros Hr. rewrite elem_of_get_safe_requests. split.
  - intros (r' & Heq & _ & Hw).
    by rewrite (safe_where_reads_selected _ _ _ _ _ Heq).
  - intros Hw. by exists r.
Qed.

Lemma select_requests_visible db now uid r :
  r ∈ tbl_requests db →
  r ∈ select_requests db now uid ↔
  Sql.holds (safe_where db now uid r) = true.
Proof.
  intros Hr. unfold select_requests. rewrite list_elem_of_filter.
  rewrite policy_agrees_with_safe_where. tauto.
Qed.

Lemma safe_where_other db now u p r :
  tbl_profiles db !! u = Some p →
  requests.requester_id r ≠ u →
  Sql.holds (safe_where db now (Some u) r) = true ↔
  requests.status r = open ∧ now < requests.expires_at r
  ∧ requests.district r = profiles.district p
  ∧ requests.blood_group r = profiles.blood_group p.
Proof.
  intros Hp Hne. rewrite safe_where_holds.
  rewrite (district_blood_match_holds _ _ _ _ Hp).
  rewrite (bool_decide_eq_false_2 _ Hne). simpl.
  rewrite orb_false_r, andb_true_r, !andb_true_iff, !bool_decide_eq_true.
  tauto.
Qed.

Lemma safe_where_own db now u r :
  requests.requester_id r = u →
  Sql.holds (safe_where db now (Some u) r) = true ↔
  requests.status r = open ∧ now < requests.expires_at r.
Proof.
  intros Hown. rewrite safe_where_holds.
  rewrite (bool_decide_eq_true_2 _ Hown). simpl.
  by rewrite andb_false_r, andb_true_r, andb_true_iff, !bool_decide_eq_true.
Qed.

(** C2: for a caller [u] with a profile, a stored request of another user
    is returned by [get_safe_requests], and equally passes the SELECT policy
    on [requests], exactly when it is open, not yet expired and in the
    caller's district and blood group; the caller's own open, unexpired
    requests are returned whatever their district and blood group. *)
Theorem request_visible_iff_match db now u p r :
  tbl_profiles db !! u = Some p →
  r ∈ tbl_requests db →
  (requests.requester_id r ≠ u →
     (safe_select db (Some u) r ∈ get_safe_requests db now (Some u) ↔
        requests.status r = open ∧ now < requests.expires_at r
        ∧ requests.district r = profiles.district p
        ∧ requests.blood_group r = profiles.blood_group p)
     ∧ (r ∈ select_requests db now (Some u) ↔
          requests.status r = open ∧ now < requests.expires_at r
          ∧ requests.district r = profiles.district p
          ∧ requests.blood_group r = profiles.blood_group p))
  ∧ (requests.requester_id r = u →
       (safe_select db (Some u) r ∈ get_safe_requests db now (Some u) ↔
          requests.status r = open ∧ now < requests.expires_at r)
       ∧ (r ∈ select_requests db now (Some u) ↔
            requests.status r = open ∧ now < requests.expires_at r)).
Proof.
  intros Hp Hr. split.
  - intros Hne.
    rewrite (safe_select_returned _ _ _ _ Hr).
    rewrite (select_requests_visible _ _ _ _ Hr).
    by rewrite (safe_where_other _ _ _ _ _ Hp Hne).
  - intros Hown.
    rewrite (safe_select_returned _ _ _ _ Hr).
    rewrite (select_requests_visible _ _ _ _ Hr).
    by rewrite (safe_where_own _ _ _ _ Hown).
Qed.

Lemma request_visible_iff_match_witness :
  (safe_select Sample.db (Some Sample.bob) Sample.open_request
     ∈ get_safe_requests Sample.db Sample.now (Some Sample.bob))
  ∧ (safe_select Sample.db (Some Sample.carol) Sample.open_request
       ∉ get_safe_requests Sample.db Sample.now (Some Sample.carol))
  ∧ (safe_select Sample.db (Some Sample.alice) Sample.open_request
       ∈ get_safe_requests Sample.db Sample.now (Some Sample.alice)).
Proof.
  assert (Hr : Sample.open_request ∈ tbl_requests Sample.db)
    by apply list_elem_of_here.
  split; [|split].
  - destruct (request_visible_iff_match Sample.db Sample.now Sample.bob
                (Sample.profile 102 "Bob" "X") Sample.open_request
                eq_refl Hr) as [Hother _].
    apply Hother; [vm_compute; discriminate|].
    by repeat split.
  - destruct (request_visible_iff_match Sample.db Sample.now Sample.carol
                (Sample.profile 103 "Carol" "Y") Sample.open_request
                eq_refl Hr) as [Hother _].
    intros Hin. apply Hother in Hin; [|vm_compute; discriminate].
    destruct Hin as (_ & _ & Hd & _). discriminate Hd.
  - destruct (request_visible_iff_match Sample.db Sample.now Sample.alice
                (Sample.profile 101 "Alice" "X") Sample.open_request
                eq_refl Hr) as [_ Hown].
    apply Hown; [reflexivity|].
    by repeat split.
Defined.

(** C8: for a caller without a profile row the district and blood-group
    comparisons do not hold (no error is raised: the functions are total),
    and [get_safe_requests] returns exactly the caller's own open,
    unexpired requests. *)
Theorem no_profile_sees_own_requests_only db now u :
  tbl_profiles db !! u = None →
  (∀ r,
     Sql.holds (Sql.eq3 (col (requests.district r))
                  (caller_district db (Some u))) = false
     ∧ Sql.holds (Sql.eq3 (col (requests.blood_group r))
                    (caller_blood_group db (Some u))) = false
     ∧ Sql.holds (district_blood_match db (Some u) r) = false)
  ∧ get_safe_requests db now (Some u) =
      safe_select db (Some u) <$>
        merge_sort created_at_desc
          (filter (λ r, requests.requester_id r = u
                        ∧ requests.status r = open
                        ∧ now < requests.expires_at r)
             (tbl_requests db))
  ∧ Forall (λ row, safe_requests.requester_id row = u)
      (get_safe_requests db now (Some u)).
Proof.
  intros [Hd Hb]%caller_without_profile.
  assert (Hmatch : ∀ r,
            Sql.holds (district_blood_match db (Some u) r) = false).
  { intros r. unfold district_blood_match.
    by rewrite Hd, Hb, holds_and3, !holds_eq3_null_r. }
  assert (Hwhere : ∀ r,
            Sql.holds (safe_where db now (Some u) r) = true ↔
            requests.requester_id r = u ∧ requests.status r = open
            ∧ now < requests.expires_at r).
  { intros r. rewrite safe_where_holds, Hmatch. simpl.
    rewrite !andb_true_iff, !bool_decide_eq_true. tauto. }
  split; [|split].
  - intros r. by rewrite Hd, Hb, !holds_eq3_null_r, Hmatch.
  - unfold get_safe_requests. do 2 f_equal. by apply list_filter_iff.
  - apply Forall_forall.
    intros row (r & -> & _ & Hw)%elem_of_get_safe_requests.
    simpl. by apply Hwhere in Hw as [? _].
Qed.

Lemma no_profile_sees_own_requests_only_witness :
  get_safe_requests Sample.db Sample.now (Some Sample.dave) = []
  ∧ Sql.holds
      (district_blood_match Sample.db (Some Sample.dave)
         Sample.open_request) = false.
Proof.
  destruct (no_profile_sees_own_requests_only Sample.db Sample.now
              Sample.dave eq_refl) as (Hcmp & Hres & _).
  split; [by rewrite Hres | apply Hcmp].
Defined.

(** C10: the open and unexpired filter of [get_safe_requests] applies to
    every row, the caller's own included: each returned row is open and not
    yet expired, so the 'My Requests' list built from it holds only such
    rows, and an owner's expired, claimed or fulfilled request is in
    neither. *)
Theorem owner_cannot_read_closed_requests db now u :
  Forall (λ row, safe_requests.status row = open
                 ∧ now < safe_requests.expires_at row)
    (get_safe_requests db now (Some u))
  ∧ Forall (λ row, safe_requests.requester_id row = u
                   ∧ safe_requests.status row = open
                   ∧ now < safe_requests.expires_at row)
      (fetchMyRequests db now u)
  ∧ ∀ r, r ∈ tbl_requests db →
         requests.requester_id r = u →
         (requests.status r ≠ open ∨ requests.expires_at r <= now) →
         (safe_select db (Some u) r ∉ get_safe_requests db now (Some u))
         ∧ (safe_select db (Some u) r ∉ fetchMyRequests db now u).
Proof.
  assert (Hall : ∀ row,
            row ∈ get_safe_requests db now (Some u) →
            safe_requests.status row = open
            ∧ now < safe_requests.expires_at row).
  { intros row (r & -> & _ & Hw)%elem_of_get_safe_requests. simpl.
    rewrite safe_where_holds, !andb_true_iff, !bool_decide_eq_true in Hw.
    tauto. }
  split; [by apply Forall_forall|]. split.
  - apply Forall_forall. unfold fetchMyRequests.
    intros row [Hown Hin]%list_elem_of_filter.
    split; [done|by apply Hall].
  - intros r _ _ Hclosed.
    assert (Hnot : safe_select db (Some u) r
                   ∉ get_safe_requests db now (Some u)).
    { intros [Hs He]%Hall. simpl in *. destruct Hclosed; [done|lia]. }
    split; [done|]. unfold fetchMyRequests.
    rewrite list_elem_of_filter. tauto.
Qed.

Lemma owner_cannot_read_closed_requests_witness :
  (safe_select Sample.db (Some Sample.alice) Sample.stale_request
     ∉ fetchMyRequests Sample.db Sample.now Sample.alice)
  ∧ (safe_select Sample.db (Some Sample.alice) Sample.claimed_request
       ∉ fetchMyRequests Sample.db Sample.now Sample.alice).
Proof.
  destruct (owner_cannot_read_closed_requests Sample.db Sample.now
              Sample.alice) as (_ & _ & Hclosed).
  split.
  - apply (Hclosed Sample.stale_request);
      [apply list_elem_of_further, list_elem_of_here | reflexivity |].
    right. simpl. unfold Sample.now. lia.
  - apply (Hclosed Sample.claimed_request);
      [do 2 apply list_elem_of_further; apply list_elem_of_here
      | reflexivity |].
    left. discriminate.
Defined.

(** ** Expiry *)

(** C7: [expire_old_requests] leaves every table but [requests] alone, keeps
    the rows of [requests] in place, rewrites exactly the rows that are open
    with [expires_at <= now] to status [expired], stamping [updated_at] and
    keeping every other column, and returns every other row as it was. *)
Theorem expire_old_requests_exact now db :
  tbl_auth_users (expire_old_requests now db) = tbl_auth_users db
  ∧ tbl_profiles (expire_old_requests now db) = tbl_profiles db
  ∧ tbl_claims (expire_old_requests now db) = tbl_claims db
  ∧ tbl_contact_requests (expire_old_requests now db)
    = tbl_contact_requests db
  ∧ Forall2
      (λ r r',
         if bool_decide (requests.status r = open
                         ∧ requests.expires_at r <= now)
         then
           r' = {| requests.id := requests.id r;
                   requests.requester_id := requests.requester_id r;
                   requests.blood_group := requests.blood_group r;
                   requests.requester_name := requests.requester_name r;
                   requests.requester_phone := requests.requester_phone r;
                   requests.district := requests.district r;
                   requests.state := requests.state r;
                   requests.location_description :=
                     requests.location_description r;
                   requests.message := requests.message r;
                   requests.status := expired;
                   requests.expires_at := requests.expires_at r;
                   requests.created_at := requests.created_at r;
                   requests.updated_at := now |}
         else r' = r)
      (tbl_requests db) (tbl_requests (expire_old_requests now db)).
Proof.
  repeat (split; [reflexivity|]).
  unfold expire_old_requests. cbn [tbl_requests with_requests].
  apply Forall2_fmap_r, Forall_Forall2_diag, Forall_forall.
  intros r _. cbv [compose].
  rewrite holds_and3, holds_eq3, holds_le3.
  do 3 case_bool_decide; simpl; try done; tauto.
Qed.

(** ** Status updates on contact requests, as the policy admits them *)

(** C3: a status update to ['approved'] or ['declined'] always goes
    through as a statement, and rewrites a contact request only when the
    caller is its [donor_id]: the row with the given id then carries the new
    status, while any row whose [donor_id] is another user, the requester's
    included, is left as it was. *)
Theorem only_donor_updates_status db uid id status t :
  status = "approved" ∨ status = "declined" →
  ∃ db',
    updateRequestStatus uid id status t db = Sql.Ok db'
    ∧ tbl_requests db' = tbl_requests db
    ∧ tbl_profiles db' = tbl_profiles db
    ∧ Forall2
        (λ cr cr',
           (uid ≠ Some (contact_requests.donor_id cr) → cr' = cr)
           ∧ (contact_requests.id cr ≠ id → cr' = cr)
           ∧ (uid = Some (contact_requests.donor_id cr) →
              contact_requests.id cr = id →
              cr' = contact_requests.set_updated_at t
                      (contact_requests.set_status status cr)
              ∧ contact_requests.status cr' = status))
        (tbl_contact_requests db) (tbl_contact_requests db').
Proof.
  intros Hst. eexists. split.
  { apply updateRequestStatus_ok. destruct Hst as [->| ->]; solve_elem_of. }
  do 2 (split; [reflexivity|]). simpl.
  apply Forall2_fmap_r, Forall_Forall2_diag, Forall_forall.
  intros cr _. simpl. split; [|split].
  - apply status_updated_other_donor.
  - intros Hid. unfold status_updated.
    by rewrite (bool_decide_eq_false_2 _ Hid).
  - intros -> Hid. by rewrite status_updated_by_donor.
Qed.

Lemma only_donor_updates_status_witness :
  (∃ db',
     updateRequestStatus (Some Sample.alice) 50 "approved" 300 Sample.db
     = Sql.Ok db'
     ∧ tbl_contact_requests db' = [Sample.invitation])
  ∧ (∃ db',
       updateRequestStatus (Some Sample.bob) 50 "declined" 300 Sample.db
       = Sql.Ok db'
       ∧ contact_requests.status <$> tbl_contact_requests db'
         = ["declined"]).
Proof.
  split.
  - destruct (only_donor_updates_status Sample.db (Some Sample.alice) 50
                "approved" 300 (or_introl eq_refl))
      as (db' & Hrun & _ & _ & Hrows).
    exists db'. split; [exact Hrun|].
    vm_compute in Hrun. by injection Hrun as <-.
  - destruct (only_donor_updates_status Sample.db (Some Sample.bob) 50
                "declined" 300 (or_intror eq_refl))
      as (db' & Hrun & _ & _ & Hrows).
    exists db'. split; [exact Hrun|].
    vm_compute in Hrun. by injection Hrun as <-.
Defined.

(** ** Creating a request *)

Lemma insert_request_succeeds u new_id now bg label name phone district
    state location message db :
  blood_group_in label = Some bg →
  new_id ∉ requests.id <$> tbl_requests db →
  is_Some (tbl_profiles db !! u) →
  ∃ r,
    insert_request (Some u) new_id now u label name phone district state
      location message db
    = Sql.Ok (r, with_requests (tbl_requests db ++ [r]) db).
Proof.
  intros Hbg Hfresh Hprofile. unfold insert_request. rewrite Hbg.
  unfold requests_insert_policy. rewrite policy_agrees_with_safe_where.
  rewrite safe_where_holds. cbn [requests.requester_id requests.status
    requests.expires_at].
  rewrite holds_eq3, !bool_decide_eq_true_2 by (done || unfold
    interval_24_hours; lia).
  rewrite orb_true_r. cbn [andb negb].
  rewrite (bool_decide_eq_false_2 _ Hfresh).
  rewrite (bool_decide_eq_true_2 _ Hprofile). cbn [negb]. by eexists.
Qed.

(** C9: a request stored by [RequestBloodDialog.onSubmit], which sends
    neither [status] nor [expires_at], is open and expires 24 hours after
    its creation time, the time of the insert. *)
Theorem insert_request_defaults uid new_id now requester_id label name
    phone district state location message db r db' :
  insert_request uid new_id now requester_id label name phone district
    state location message db = Sql.Ok (r, db') →
  requests.status r = open
  ∧ requests.created_at r = now
  ∧ requests.expires_at r = requests.created_at r + 24 * 3600 * 1000000
  ∧ tbl_requests db' = (tbl_requests db ++ [r])%list.
Proof.
  unfold insert_request. intros Hrun.
  destruct (blood_group_in label) as [bg|]; [|done].
  repeat case_match; try done.
  injection Hrun as <- <-. by repeat split.
Qed.

Lemma insert_request_defaults_witness :
  ∃ r db',
    insert_request (Some Sample.alice) 13 Sample.now Sample.alice "AB-"
      "Alice" "555-0100" "X" "S" "Ward 3" "two units" Sample.db
    = Sql.Ok (r, db')
    ∧ requests.status r = open
    ∧ requests.expires_at r = 200 + 86400000000.
Proof.
  destruct (insert_request_succeeds Sample.alice 13 Sample.now AB_neg "AB-"
              "Alice" "555-0100" "X" "S" "Ward 3" "two units" Sample.db)
    as [r Hrun];
    [reflexivity | by apply (bool_decide_eq_false_1 _) | by eexists |].
  exists r, (with_requests (tbl_requests Sample.db ++ [r]) Sample.db).
  split; [exact Hrun|].
  destruct (insert_request_defaults _ _ _ _ _ _ _ _ _ _ _ _ _ _ Hrun)
    as (Hs & Hc & He & _).
  split; [exact Hs|]. rewrite He, Hc. reflexivity.
Defined.

(** ** Claims: the uniqueness constraint and its loss *)

Lemma insert_claim_20250924_keeps_unique uid new_id now request_id donor_id
    db db' :
  claims_unique db →
  insert_claim_20250924 uid new_id now request_id donor_id db = Sql.Ok db' →
  claims_unique db'.
Proof.
  unfold claims_unique, insert_claim_20250924. intros Huniq Hrun.
  destruct (bool_decide (claims_pair
              (new_claim new_id now request_id donor_id)
              ∈ claims_pair <$> tbl_claims db)) eqn:Hpair;
    repeat case_match; try done.
  injection Hrun as <-. simpl.
  rewrite fmap_app. apply NoDup_app. split; [done|]. split.
  - intros pair Hin [->|[]%not_elem_of_nil]%elem_of_cons.
    by apply bool_decide_eq_false in Hpair.
  - apply NoDup_singleton.
Qed.

Lemma insert_claim_20250924_rejects_duplicate uid new_id now c db :
  c ∈ tbl_claims db →
  uid = Some (claims.donor_id c) →
  new_id ∉ claims.id <$> tbl_claims db →
  insert_claim_20250924 uid new_id now (claims.request_id c)
    (claims.donor_id c) db
  = Sql.Error Sql.unique_violation.
Proof.
  intros Hin -> Hfresh. unfold insert_claim_20250924, claims_insert_policy.
  rewrite holds_eq3. cbn [new_claim claims.donor_id].
  rewrite bool_decide_eq_true_2 by done. cbn [negb].
  rewrite (bool_decide_eq_false_2 _ Hfresh).
  rewrite bool_decide_eq_true_2; [done|].
  change (claims_pair c ∈ claims_pair <$> tbl_claims db).
  by apply list_elem_of_fmap_2.
Qed.

Lemma insert_claim_accepts_duplicate u new_id now c db :
  c ∈ tbl_claims db →
  u = claims.donor_id c →
  new_id ∉ claims.id <$> tbl_claims db →
  claims.request_id c ∈ requests.id <$> tbl_requests db →
  handleClaimRequest u new_id now (claims.request_id c) db
  = Sql.Ok
      (with_claims
         (tbl_claims db ++ [new_claim new_id now (claims.request_id c) u])
         db).
Proof.
  intros Hin -> Hfresh Hreq.
  unfold handleClaimRequest, insert_claim, claims_insert_policy.
  rewrite holds_eq3. cbn [new_claim claims.donor_id].
  rewrite bool_decide_eq_true_2 by done. cbn [negb].
  rewrite (bool_decide_eq_false_2 _ Hfresh).
  by rewrite (bool_decide_eq_true_2 _ Hreq).
Qed.

(** C4, as the code has it: on the [claims] table that migration
    20250925113624 creates, Bob claims request 10 twice and both inserts
    succeed, leaving two rows for one (request, donor) pair; the table of
    the first migration refuses the second insert with a unique
    violation. *)
Theorem handleClaimRequest_twice_duplicates :
  ∃ db1 db2,
    handleClaimRequest Sample.bob 70 Sample.now 10 Sample.db = Sql.Ok db1
    ∧ handleClaimRequest Sample.bob 71 Sample.now 10 db1 = Sql.Ok db2
    ∧ claims_pair <$> tbl_claims db2
      = [(10%N, Sample.bob); (10%N, Sample.bob)]
    ∧ ¬ claims_unique db2
    ∧ insert_claim_20250924 (Some Sample.bob) 71 Sample.now 10 Sample.bob
        db1
      = Sql.Error Sql.unique_violation.
Proof.
  eexists _, _. split; [vm_compute; reflexivity|].
  split; [vm_compute; reflexivity|].
  split; [reflexivity|]. split; [|vm_compute; reflexivity].
  unfold claims_unique. simpl. intros Hdup.
  apply NoDup_cons in Hdup as [Hnotin _]. apply Hnotin, list_elem_of_here.
Qed.

(** ** Cancelling a request by a status update *)

(** C5, as the code has it: [request_status] has the four labels of the
    first migration and no ['cancelled']; the cast of that label fails, so
    the update that [handleCancelRequest] sends is an error for every
    caller, request and database, and nothing is stored. *)
Theorem handleCancelRequest_invalid_label :
  (∀ s : request_status, s ∈ [open; claimed; fulfilled; expired])
  ∧ request_status_in "cancelled" = None
  ∧ (∀ s, request_status_out s ≠ "cancelled")
  ∧ (∀ user_id request_id now db,
       handleCancelRequest user_id request_id now db
       = Sql.Error Sql.invalid_text_representation)
  ∧ handleCancelRequest Sample.alice 10 Sample.now Sample.db
    = Sql.Error Sql.invalid_text_representation.
Proof.
  split; [intros []; solve_elem_of|].
  split; [reflexivity|]. split; [by intros []|].
  split; reflexivity.
Qed.

(** ** Who may create a contact request *)

Lemma donor_offer_rejected u new_id now requestId requesterId message db :
  u ≠ requesterId →
  DonorContactRequestDialog_onSubmit u new_id now requestId requesterId
    message db
  = Sql.Error Sql.insufficient_privilege.
Proof.
  intros Hne.
  unfold DonorContactRequestDialog_onSubmit, insert_contact_request,
    contact_requests_insert_policy.
  rewrite holds_eq3. cbn [contact_requests.requester_id].
  by rewrite (bool_decide_eq_false_2 _ Hne).
Qed.

Lemma requester_invitation_stored u new_id now requestId donorId message
    db :
  new_id ∉ contact_requests.id <$> tbl_contact_requests db →
  requestId ∈ requests.id <$> tbl_requests db →
  donorId ∈ tbl_auth_users db →
  u ∈ tbl_auth_users db →
  ∃ cr,
    ContactRequestDialog_onSubmit u new_id now requestId donorId message db
    = Sql.Ok
        (with_contact_requests (tbl_contact_requests db ++ [cr]) db)
    ∧ contact_requests.status cr = "pending"
    ∧ contact_requests.requester_id cr = u
    ∧ contact_requests.donor_id cr = donorId.
Proof.
  intros Hfresh Hreq Hdonor Hu.
  unfold ContactRequestDialog_onSubmit, insert_contact_request,
    contact_requests_insert_policy.
  rewrite holds_eq3. cbn [contact_requests.requester_id].
  rewrite bool_decide_eq_true_2 by done. cbn [negb].
  rewrite (bool_decide_eq_false_2 _ Hfresh).
  rewrite !bool_decide_eq_true_2 by done. by eexists.
Qed.

(** C6, as the code has it: the only INSERT policy on [contact_requests]
    admits a row whose [requester_id] is the caller.  Alice's invitation of
    Bob is stored as ['pending']; Bob's offer on Alice's request, which
    names Bob as donor and Alice as requester, is refused by the policy. *)
Theorem donor_offer_refused_by_insert_policy :
  DonorContactRequestDialog_onSubmit Sample.bob 51 Sample.now 10
    Sample.alice "I can donate" Sample.db
  = Sql.Error Sql.insufficient_privilege
  ∧ ∃ db',
      ContactRequestDialog_onSubmit Sample.alice 51 Sample.now 10
        Sample.bob "Can you help?" Sample.db
      = Sql.Ok db'
      ∧ contact_requests.status <$> tbl_contact_requests db'
        = ["pending"; "pending"].
Proof.
  split; [by apply donor_offer_rejected|].
  eexists. split; [vm_compute; reflexivity|reflexivity].
Qed.

(** * Further properties of the modelled code *)

(** ** Expiry as an operation *)

Lemma expired_row_not_targeted now r :
  Sql.holds
    (Sql.and3
       (Sql.eq3
          (col (requests.status
                  (update_updated_at_column now
                     (requests.set_status expired r))))
          (col open))
       (Sql.le3
          (col (requests.expires_at
                  (update_updated_at_column now
                     (requests.set_status expired r))))
          (col now)))
  = false.
Proof. by rewrite holds_and3, holds_eq3. Qed.

Lemma not_targeted_iff now r :
  Sql.holds
    (Sql.and3 (Sql.eq3 (col (requests.status r)) (col open))
       (Sql.le3 (col (requests.expires_at r)) (col now))) = false ↔
  ¬ (requests.status r = open ∧ requests.expires_at r <= now).
Proof.
  rewrite holds_and3, holds_eq3, holds_le3, andb_false_iff.
  rewrite !bool_decide_eq_false. split; [tauto|].
  destruct (decide (requests.status r = open)); tauto.
Qed.

(** X1: running [expire_old_requests] a second time at the same instant
    changes nothing, and after a run no request is both open and past its
    expiry. *)
Theorem expire_old_requests_idempotent now db :
  expire_old_requests now (expire_old_requests now db)
  = expire_old_requests now db
  ∧ Forall (λ r, ¬ (requests.status r = open
                    ∧ requests.expires_at r <= now))
      (tbl_requests (expire_old_requests now db)).
Proof.
  unfold expire_old_requests, with_requests. cbn [tbl_requests
    tbl_auth_users tbl_profiles tbl_claims tbl_contact_requests]. split.
  - f_equal. rewrite <- list_fmap_compose. apply list_fmap_ext.
    intros i r _. cbv [compose].
    destruct (Sql.holds
                (Sql.and3 (Sql.eq3 (col (requests.status r)) (col open))
                   (Sql.le3 (col (requests.expires_at r)) (col now))))
      eqn:Hr.
    + by rewrite expired_row_not_targeted.
    + by rewrite Hr.
  - apply Forall_fmap, Forall_forall. intros r _. cbv [compose].
    destruct (Sql.holds
                (Sql.and3 (Sql.eq3 (col (requests.status r)) (col open))
                   (Sql.le3 (col (requests.expires_at r)) (col now))))
      eqn:Hr.
    + simpl. by intros [? _].
    + by apply not_targeted_iff.
Qed.

Lemma filter_fmap_unchanged {A} (P : A → Prop) `{!∀ x, Decision (P x)}
    (f : A → A) (l : list A) :
  (∀ x, f x = x ∨ (¬ P x ∧ ¬ P (f x))) →
  filter P (f <$> l) = filter P l.
Proof.
  intros Hf. induction l as [|x l IH]; [done|].
  rewrite fmap_cons, !filter_cons, IH.
  destruct (Hf x) as [-> | [Hx Hfx]]; [done|].
  by rewrite !decide_False.
Qed.

(** X2: expiry is invisible to readers: at any time from [now] on, every
    caller gets from [get_safe_requests], and sees under the SELECT policy,
    the same rows after [expire_old_requests now] as before it. *)
Theorem expire_old_requests_keeps_feeds now now' uid db :
  now <= now' →
  get_safe_requests (expire_old_requests now db) now' uid
  = get_safe_requests db now' uid
  ∧ select_requests (expire_old_requests now db) now' uid
    = select_requests db now' uid.
Proof.
  intros Hle.
  assert (Hrows :
    filter (λ r, Sql.holds (safe_where db now' uid r) = true)
      (tbl_requests (expire_old_requests now db))
    = filter (λ r, Sql.holds (safe_where db now' uid r) = true)
        (tbl_requests db)).
  { unfold expire_old_requests. cbn [tbl_requests with_requests].
    apply filter_fmap_unchanged. intros r.
    rewrite holds_and3, holds_eq3, holds_le3.
    destruct (bool_decide (requests.status r = open)) eqn:Hs;
      destruct (bool_decide (requests.expires_at r <= now)) eqn:He;
      cbn [andb]; try by left.
    right. apply bool_decide_eq_true in He.
    unfold safe_where. rewrite !holds_and3, !holds_eq3, !holds_gt3.
    cbn [requests.status requests.expires_at update_updated_at_column
      requests.set_updated_at requests.set_status].
    rewrite (bool_decide_eq_false_2 (now' < requests.expires_at r)) by lia.
    rewrite andb_false_r. by split. }
  split.
  - unfold get_safe_requests.
    change (safe_select (expire_old_requests now db)) with (safe_select db).
    change (safe_where (expire_old_requests now db)) with (safe_where db).
    by rewrite Hrows.
  - unfold select_requests.
    change (requests_select_policy (expire_old_requests now db))
      with (safe_where db).
    change (requests_select_policy db) with (safe_where db).
    by rewrite Hrows.
Qed.

Lemma expire_old_requests_keeps_feeds_witness :
  get_safe_requests (expire_old_requests Sample.now Sample.db) 300
    (Some Sample.bob)
  = get_safe_requests Sample.db 300 (Some Sample.bob).
Proof.
  apply (expire_old_requests_keeps_feeds Sample.now 300 (Some Sample.bob)
           Sample.db).
  unfold Sample.now. lia.
Defined.

(** ** The feed and its two tabs *)

Global Instance created_at_desc_total : Total created_at_desc.
Proof. intros a b. unfold created_at_desc. lia. Qed.

Global Instance created_at_desc_trans : Transitive created_at_desc.
Proof. intros a b c. unfold created_at_desc. lia. Qed.

Lemma StronglySorted_filter {A} (R : relation A) (P : A → Prop)
    `{!∀ x, Decision (P x)} (l : list A) :
  StronglySorted R l → StronglySorted R (filter P l).
Proof.
  induction 1 as [|x l Hl IH Hx]; [constructor|].
  rewrite filter_cons. case_decide; [|done].
  constructor; [done|].
  apply Forall_forall. intros y [_ Hy]%list_elem_of_filter.
  by eapply Forall_forall in Hx.
Qed.

(** X3: the rows of [get_safe_requests] come newest first, and so do the
    rows of either tab of the dashboard. *)
Theorem feed_newest_first db now uid user_id :
  let newer_first := λ a b : safe_requests.row,
    safe_requests.created_at b <= safe_requests.created_at a in
  StronglySorted newer_first (get_safe_requests db now uid)
  ∧ StronglySorted newer_first (Dashboard.fetchRequests db now user_id)
  ∧ StronglySorted newer_first (fetchMyRequests db now user_id).
Proof.
  intros newer_first.
  assert (Hsorted : ∀ caller,
            StronglySorted newer_first (get_safe_requests db now caller)).
  { intros caller. unfold get_safe_requests.
    apply (StronglySorted_fmap _ created_at_desc); [by intros x y|].
    apply StronglySorted_merge_sort; apply _. }
  split; [apply Hsorted|].
  split; apply StronglySorted_filter, Hsorted.
Qed.

(** X4: the two tabs split the result of [get_safe_requests]: together they
    hold its rows, each as often as it was returned, and no row is in
    both. *)
Theorem tabs_partition_feed db now user_id :
  Dashboard.fetchRequests db now user_id ++ fetchMyRequests db now user_id
    ≡ₚ get_safe_requests db now (Some user_id)
  ∧ Forall (λ row, row ∉ fetchMyRequests db now user_id)
      (Dashboard.fetchRequests db now user_id).
Proof.
  unfold Dashboard.fetchRequests, fetchMyRequests. split.
  - rewrite Permutation_app_comm. apply filter_app_complement.
  - apply Forall_forall.
    intros row [Hne _]%list_elem_of_filter [Heq _]%list_elem_of_filter.
    done.
Qed.

(** X5: when the client's clock is not ahead of the database, the feed
    that reads the table under the SELECT policy returns the requests that
    the feed built on [get_safe_requests] returns; the latter carries each
    with its phone redacted by [safe_select], the former with the phone
    column as stored. *)
Theorem table_feed_is_unredacted_feed db now client_now user_id :
  client_now <= now →
  safe_select db (Some user_id)
    <$> fetchRequests_from_table db now client_now user_id
  ≡ₚ Dashboard.fetchRequests db now user_id.
Proof.
  intros Hclock.
  unfold fetchRequests_from_table, Dashboard.fetchRequests,
    get_safe_requests, select_requests.
  rewrite !merge_sort_Permutation.
  induction (tbl_requests db) as [|r rs IH]; [done|].
  rewrite !filter_cons.
  change (requests_select_policy db now (Some user_id) r)
    with (safe_where db now (Some user_id) r).
  destruct (decide (Sql.holds (safe_where db now (Some user_id) r) = true))
    as [Hw|Hw]; [|done].
  rewrite fmap_cons, !filter_cons. cbn [safe_select
    safe_requests.requester_id].
  rewrite safe_where_holds, !andb_true_iff, !bool_decide_eq_true in Hw.
  destruct Hw as [[Hs He] _].
  destruct (decide (requests.requester_id r ≠ user_id)) as [Hne|Hown].
  - rewrite decide_True by (split; [done|split; [lia|done]]).
    rewrite fmap_cons. by f_equiv.
  - rewrite decide_False by tauto. done.
Qed.

Lemma table_feed_is_unredacted_feed_witness :
  safe_select Sample.db (Some Sample.bob)
    <$> fetchRequests_from_table Sample.db Sample.now 150 Sample.bob
  ≡ₚ Dashboard.fetchRequests Sample.db Sample.now Sample.bob.
Proof.
  apply (table_feed_is_unredacted_feed Sample.db Sample.now 150 Sample.bob).
  unfold Sample.now. lia.
Defined.

(** ** Deleting a request and the cascade *)

Lemma filter_all {A} (P : A → Prop) `{!∀ x, Decision (P x)} (l : list A) :
  Forall P l → filter P l = l.
Proof.
  induction 1 as [|x l Hx Hl IH]; [done|].
  by rewrite filter_cons, decide_True, IH.
Qed.

Lemma NoDup_fmap_eq {A B} (f : A → B) (l : list A) x y :
  NoDup (f <$> l) → x ∈ l → y ∈ l → f x = f y → x = y.
Proof.
  induction l as [|z l IH]; [by intros _ ?%not_elem_of_nil|].
  rewrite fmap_cons, NoDup_cons.
  intros [Hz Hl] [->|Hx]%elem_of_cons [->|Hy]%elem_of_cons Heq;
    [done| | |by apply IH].
  - destruct Hz. rewrite Heq. by apply list_elem_of_fmap_2.
  - destruct Hz. rewrite <- Heq. by apply list_elem_of_fmap_2.
Qed.

Lemma delete_target_id db now uid request_id r :
  delete_target db now uid request_id r = true → requests.id r = request_id.
Proof.
  unfold delete_target. rewrite !andb_true_iff, bool_decide_eq_true. tauto.
Qed.

Lemma delete_target_owner db now u r :
  delete_target db now (Some u) (requests.id r) r = true ↔
  requests.requester_id r = u ∧ requests.status r = open
  ∧ now < requests.expires_at r.
Proof.
  unfold delete_target, requests_delete_policy.
  rewrite policy_agrees_with_safe_where, holds_eq3.
  rewrite bool_decide_eq_true_2 by done. cbn [andb].
  rewrite andb_true_iff, bool_decide_eq_true. split.
  - intros [Hw Hu]. split; [done|]. by apply (safe_where_own db now u r).
  - intros (Hu & Hs & He). split; [|done]. by apply safe_where_own.
Qed.

Lemma deleted_ids db now uid request_id x :
  x ∈ requests.id <$>
        filter (λ r, delete_target db now uid request_id r = true)
          (tbl_requests db) →
  x = request_id.
Proof.
  intros (r & -> & [Ht _]%list_elem_of_filter)%list_elem_of_fmap.
  by apply delete_target_id in Ht.
Qed.

(** What the owner's delete of a visible request leaves behind. *)
Lemma delete_visible_own_request db now u r :
  NoDup (requests.id <$> tbl_requests db) →
  r ∈ tbl_requests db →
  delete_target db now (Some u) (requests.id r) r = true →
  let db' := delete_request (Some u) (requests.id r) now db in
  (requests.id r ∉ requests.id <$> tbl_requests db')
  ∧ (requests.id r ∉ claims.request_id <$> tbl_claims db')
  ∧ (requests.id r
       ∉ contact_requests.request_id <$> tbl_contact_requests db').
Proof.
  intros Hpk Hr Ht db'.
  assert (Hdel : requests.id r
                 ∈ requests.id <$>
                     filter (λ r', delete_target db now (Some u)
                                     (requests.id r) r' = true)
                       (tbl_requests db)).
  { apply list_elem_of_fmap_2. by apply list_elem_of_filter. }
  split; [|split].
  - intros (r' & Hid & [Hkeep Hr']%list_elem_of_filter)%list_elem_of_fmap.
    rewrite (NoDup_fmap_eq requests.id _ r r' Hpk Hr Hr' Hid) in Ht.
    congruence.
  - intros (c & Hid & [Hkeep _]%list_elem_of_filter)%list_elem_of_fmap.
    apply Hkeep. by rewrite <- Hid.
  - intros (cr & Hid & [Hkeep _]%list_elem_of_filter)%list_elem_of_fmap.
    apply Hkeep. by rewrite <- Hid.
Qed.

(** X6: when the owner deletes one of their open, unexpired requests, the
    request is gone together with every claim and contact request that
    refers to it, while the rows of all other requests, their claims and
    their contact requests, and all profiles stay as they were. *)
Theorem delete_request_cascades db now u r :
  NoDup (requests.id <$> tbl_requests db) →
  r ∈ tbl_requests db →
  requests.requester_id r = u →
  requests.status r = open →
  now < requests.expires_at r →
  let db' := handleCancelRequest_delete u (requests.id r) now db in
  ((requests.id r ∉ requests.id <$> tbl_requests db')
   ∧ (requests.id r ∉ claims.request_id <$> tbl_claims db')
   ∧ (requests.id r
        ∉ contact_requests.request_id <$> tbl_contact_requests db'))
  ∧ filter (λ x, requests.id x ≠ requests.id r) (tbl_requests db')
    = filter (λ x, requests.id x ≠ requests.id r) (tbl_requests db)
  ∧ filter (λ c, claims.request_id c ≠ requests.id r) (tbl_claims db')
    = filter (λ c, claims.request_id c ≠ requests.id r) (tbl_claims db)
  ∧ filter (λ cr, contact_requests.request_id cr ≠ requests.id r)
      (tbl_contact_requests db')
    = filter (λ cr, contact_requests.request_id cr ≠ requests.id r)
        (tbl_contact_requests db)
  ∧ tbl_profiles db' = tbl_profiles db.
Proof.
  intros Hpk Hr Hown Hs He db'.
  split.
  { apply delete_visible_own_request; [done..|].
    by apply delete_target_owner. }
  unfold db', handleCancelRequest_delete, delete_request.
  cbn [tbl_requests tbl_claims tbl_contact_requests tbl_profiles].
  rewrite !list_filter_filter.
  repeat split; apply list_filter_iff; intros x; split;
    try tauto; intros Hne; (split; [done|]).
  - destruct (delete_target db now (Some u) (requests.id r) x) eqn:Hx;
      [|done].
    by apply delete_target_id in Hx.
  - by intros Hin%deleted_ids.
  - by intros Hin%deleted_ids.
Qed.

Lemma delete_request_cascades_witness :
  (10%N ∉ requests.id <$>
            tbl_requests
              (handleCancelRequest_delete Sample.alice 10 Sample.now
                 Sample.db))
  ∧ tbl_contact_requests
      (handleCancelRequest_delete Sample.alice 10 Sample.now Sample.db)
    = [].
Proof.
  destruct (delete_request_cascades Sample.db Sample.now Sample.alice
              Sample.open_request)
    as [(Hgone & _ & _) _];
    [by apply (bool_decide_unpack _) | solve_elem_of | done..|].
  split; [exact Hgone | reflexivity].
Defined.

(** X7: a delete changes nothing when every request with the given id
    belongs to somebody else, is not open, or has expired: another user
    cannot delete a request, and the owner cannot delete one that the SELECT
    policy no longer shows. *)
Theorem delete_request_without_effect db now u request_id :
  Forall (λ r, requests.id r = request_id →
               requests.requester_id r ≠ u ∨ requests.status r ≠ open
               ∨ requests.expires_at r <= now)
    (tbl_requests db) →
  handleCancelRequest_delete u request_id now db = db.
Proof.
  intros Hnone.
  assert (Hno : Forall (λ r, delete_target db now (Some u) request_id r
                             = false) (tbl_requests db)).
  { eapply Forall_impl; [exact Hnone|]. intros r Hr.
    destruct (delete_target db now (Some u) request_id r) eqn:Ht; [|done].
    pose proof (delete_target_id _ _ _ _ _ Ht) as <-.
    apply delete_target_owner in Ht as (Ho & Hs & He).
    destruct (Hr eq_refl) as [?|[?|?]]; [done..|lia]. }
  assert (Hdel : filter (λ r, delete_target db now (Some u) request_id r
                              = true) (tbl_requests db) = []).
  { clear Hnone. induction Hno as [|r rs Hr _ IH]; [done|].
    rewrite filter_cons, decide_False by congruence. done. }
  unfold handleCancelRequest_delete, delete_request. rewrite Hdel.
  rewrite (filter_all _ _ Hno). rewrite !filter_all.
  - by destruct db.
  - apply Forall_forall. intros cr _. apply not_elem_of_nil.
  - apply Forall_forall. intros c _. apply not_elem_of_nil.
Qed.

Lemma delete_request_without_effect_witness :
  handleCancelRequest_delete Sample.bob 10 Sample.now Sample.db = Sample.db
  ∧ handleCancelRequest_delete Sample.alice 11 Sample.now Sample.db
    = Sample.db.
Proof.
  split.
  - apply (delete_request_without_effect Sample.db Sample.now Sample.bob
             10).
    by apply (bool_decide_unpack _).
  - apply (delete_request_without_effect Sample.db Sample.now Sample.alice
             11).
    by apply (bool_decide_unpack _).
Defined.

Lemma delete_request_no_target db now uid request_id :
  Forall (λ r, delete_target db now uid request_id r = false)
    (tbl_requests db) →
  delete_request uid request_id now db = db.
Proof.
  intros Hno.
  assert (Hdel : filter (λ r, delete_target db now uid request_id r = true)
                   (tbl_requests db) = []).
  { induction Hno as [|r rs Hr _ IH]; [done|].
    rewrite filter_cons, decide_False by congruence. done. }
  unfold delete_request. rewrite Hdel.
  rewrite (filter_all _ _ Hno). rewrite !filter_all.
  - by destruct db.
  - apply Forall_forall. intros cr _. apply not_elem_of_nil.
  - apply Forall_forall. intros c _. apply not_elem_of_nil.
Qed.

(** X8: a row listed under 'My Requests' can be cancelled until it expires.
    When [handleCancelRequest] runs before the expiry time of the row, no
    request with its id is stored afterwards and [get_safe_requests] returns
    it to nobody; when it runs at the expiry time or later, the database is
    left as it was. *)
Theorem my_requests_are_deletable db listed now u row :
  NoDup (requests.id <$> tbl_requests db) →
  row ∈ fetchMyRequests db listed u →
  let db' :=
    handleCancelRequest_delete u (safe_requests.id row) now db in
  (now < safe_requests.expires_at row →
   (safe_requests.id row ∉ requests.id <$> tbl_requests db')
   ∧ ∀ now' caller,
       safe_requests.id row
         ∉ safe_requests.id <$> get_safe_requests db' now' caller)
  ∧ (safe_requests.expires_at row <= now → db' = db).
Proof.
  intros Hpk [Hown Hin]%list_elem_of_filter db'.
  apply elem_of_get_safe_requests in Hin as (r & -> & Hr & Hw).
  cbn [safe_select safe_requests.id safe_requests.requester_id
       safe_requests.expires_at] in *.
  apply (safe_where_own _ _ _ _ Hown) in Hw as [Hopen _].
  split.
  - intros Hlive.
    assert (Hgone : requests.id r ∉ requests.id <$> tbl_requests db').
    { apply delete_visible_own_request; [done..|].
      by apply delete_target_owner. }
    split; [done|]. intros now' caller Hin. apply Hgone.
    apply list_elem_of_fmap in Hin as (row' & Hid & Hrow').
    apply elem_of_get_safe_requests in Hrow' as (r' & -> & Hr' & _).
    rewrite Hid. by apply (list_elem_of_fmap_2 requests.id).
  - intros Hexpired. apply delete_request_no_target, Forall_forall.
    intros r' Hr'.
    destruct (delete_target db now (Some u) (requests.id r) r') eqn:Ht;
      [|done].
    pose proof (delete_target_id _ _ _ _ _ Ht) as Hid.
    assert (r' = r) as ->
      by by apply (NoDup_fmap_eq requests.id (tbl_requests db)).
    apply delete_target_owner in Ht as (_ & _ & Hlive). lia.
Qed.

Lemma my_requests_are_deletable_witness :
  (10%N ∉ requests.id <$>
            tbl_requests
              (handleCancelRequest_delete Sample.alice 10 Sample.now
                 Sample.db))
  ∧ handleCancelRequest_delete Sample.alice 10 1000 Sample.db = Sample.db.
Proof.
  assert (Hlisted :
    safe_select Sample.db (Some Sample.alice) Sample.open_request
      ∈ fetchMyRequests Sample.db Sample.now Sample.alice).
  { apply list_elem_of_filter. split; [reflexivity|].
    apply elem_of_get_safe_requests. exists Sample.open_request.
    split; [reflexivity|]. split; [solve_elem_of|reflexivity]. }
  assert (Hpk : NoDup (requests.id <$> tbl_requests Sample.db))
    by by apply (bool_decide_unpack _).
  split.
  - apply (my_requests_are_deletable Sample.db Sample.now Sample.now
             Sample.alice
             (safe_select Sample.db (Some Sample.alice) Sample.open_request)
             Hpk Hlisted).
    reflexivity.
  - apply (my_requests_are_deletable Sample.db Sample.now 1000
             Sample.alice
             (safe_select Sample.db (Some Sample.alice) Sample.open_request)
             Hpk Hlisted).
    discriminate.
Defined.

(** ** Contact requests and what they reveal *)

Lemma for_each_row_inv {A} (f : A → Sql.result A) rows rows' :
  Sql.for_each_row f rows = Sql.Ok rows' →
  Forall2 (λ r r', f r = Sql.Ok r') rows rows'.
Proof.
  revert rows'. induction rows as [|r rows IH]; intros rows' Hrun.
  - injection Hrun as <-. constructor.
  - simpl in Hrun. destruct (f r) as [r'|] eqn:Hr; [|done].
    simpl in Hrun.
    destruct (Sql.for_each_row f rows) as [rest|]; [|done].
    injection Hrun as <-. constructor; [done|by apply IH].
Qed.

Lemma update_contact_request_row_inv uid id status now cr cr' :
  update_contact_request_row uid id status now cr = Sql.Ok cr' →
  cr' = status_updated uid id status now cr.
Proof.
  unfold update_contact_request_row, status_updated.
  rewrite <- holds_update_policy.
  destruct (bool_decide (contact_requests.id cr = id)); cbn [andb];
    [|congruence].
  destruct (Sql.holds (contact_requests_update_policy uid cr)) eqn:Hu.
  - rewrite (donor_passes_select_policy _ _ Hu). cbn [andb].
    repeat case_match; congruence.
  - rewrite andb_false_r. congruence.
Qed.

Lemma updateRequestStatus_inv uid id status now db db' :
  updateRequestStatus uid id status now db = Sql.Ok db' →
  db' = with_contact_requests
          (status_updated uid id status now <$> tbl_contact_requests db) db.
Proof.
  unfold updateRequestStatus. intros Hrun.
  destruct (Sql.for_each_row _ _) as [crs|] eqn:Hrows; [|done].
  injection Hrun as <-. f_equal.
  apply for_each_row_inv in Hrows.
  induction Hrows as [|cr cr' crs crs' Hcr _ IH]; [done|].
  rewrite fmap_cons, <- IH. f_equal.
  by apply update_contact_request_row_inv.
Qed.

Lemma insert_contact_request_inv uid new_id now request_id donor_id
    requester_id message db db' :
  insert_contact_request uid new_id now request_id donor_id requester_id
    message db = Sql.Ok db' →
  ∃ cr,
    db' = with_contact_requests (tbl_contact_requests db ++ [cr]) db
    ∧ contact_requests.id cr = new_id
    ∧ contact_requests.request_id cr = request_id
    ∧ contact_requests.donor_id cr = donor_id
    ∧ contact_requests.requester_id cr = requester_id
    ∧ contact_requests.status cr = "pending"
    ∧ uid = Some requester_id
    ∧ (new_id ∉ contact_requests.id <$> tbl_contact_requests db)
    ∧ request_id ∈ requests.id <$> tbl_requests db
    ∧ donor_id ∈ tbl_auth_users db
    ∧ requester_id ∈ tbl_auth_users db.
Proof.
  unfold insert_contact_request, contact_requests_insert_policy.
  cbn [contact_requests.requester_id]. intros Hrun.
  destruct (Sql.holds (Sql.eq3 uid (Some requester_id))) eqn:Hpol;
    [|done].
  cbn [negb] in Hrun.
  destruct (contact_requests.status_check _); [|done]. cbn [negb] in Hrun.
  case_bool_decide as Hfresh; [done|].
  destruct (bool_decide (request_id ∈ _)) eqn:Hreq; [|done].
  destruct (bool_decide (donor_id ∈ _)) eqn:Hdonor; [|done].
  destruct (bool_decide (requester_id ∈ _)) eqn:Hrequester; [|done].
  cbn [andb negb] in Hrun. injection Hrun as <-.
  apply bool_decide_eq_true in Hreq, Hdonor, Hrequester.
  eexists. split; [reflexivity|]. repeat split; try done.
  destruct uid as [u|]; [|done]. rewrite holds_eq3 in Hpol.
  apply bool_decide_eq_true in Hpol. by subst.
Qed.

(** X9: a contact request sent from [ContactRequestDialog] reveals nothing:
    when the insert goes through, the table has one more row, which is
    pending and names the caller as requester and the chosen user as donor,
    and [get_safe_requests] returns to every caller, at every time, what it
    returned before. *)
Theorem new_contact_request_reveals_nothing user_id new_id now requestId
    donorId message db db' :
  ContactRequestDialog_onSubmit user_id new_id now requestId donorId message
    db = Sql.Ok db' →
  (∃ cr,
     tbl_contact_requests db' = (tbl_contact_requests db ++ [cr])%list
     ∧ contact_requests.id cr = new_id
     ∧ contact_requests.request_id cr = requestId
     ∧ contact_requests.donor_id cr = donorId
     ∧ contact_requests.requester_id cr = user_id
     ∧ contact_requests.status cr = "pending")
  ∧ tbl_requests db' = tbl_requests db
  ∧ ∀ t caller, get_safe_requests db' t caller = get_safe_requests db t caller.
Proof.
  unfold ContactRequestDialog_onSubmit.
  intros (cr & -> & Hid & Hreq & Hdonor & Hrequester & Hst & _)
           %insert_contact_request_inv.
  split; [by exists cr|]. split; [done|]. intros t caller.
  unfold get_safe_requests.
  apply list_fmap_ext. intros i r _.
  unfold safe_select, safe_phone, has_approved_contact.
  cbn [tbl_contact_requests with_contact_requests].
  rewrite existsb_app. cbn [existsb]. unfold approved_contact at 2.
  rewrite Hst, !holds_and3.
  replace (Sql.holds (Sql.eq3 (Some "pending") (Some "approved")))
    with false by done.
  by rewrite !andb_false_r, !orb_false_r.
Qed.

Lemma new_contact_request_reveals_nothing_witness :
  ∃ db',
    ContactRequestDialog_onSubmit Sample.alice 51 Sample.now 10 Sample.carol
      "Could you help us?" Sample.db = Sql.Ok db'
    ∧ contact_requests.status <$> tbl_contact_requests db'
      = ["pending"; "pending"]
    ∧ get_safe_requests db' Sample.now (Some Sample.bob)
      = get_safe_requests Sample.db Sample.now (Some Sample.bob)
    ∧ safe_requests.requester_phone
        <$> get_safe_requests db' Sample.now (Some Sample.bob)
      = [None].
Proof.
  eexists. split; [vm_compute; reflexivity|].
  split; [reflexivity|].
  split; [|vm_compute; reflexivity].
  eapply (new_contact_request_reveals_nothing Sample.alice 51 Sample.now 10
            Sample.carol "Could you help us?" Sample.db).
  vm_compute. reflexivity.
Defined.

(** X10: a status update to anything but ['approved'] never makes a phone
    number visible: whoever reads a phone after it could read it before. *)
Theorem non_approval_reveals_nothing uid id status now db db' :
  updateRequestStatus uid id status now db = Sql.Ok db' →
  status ≠ "approved" →
  ∀ caller r,
    is_Some (safe_phone db' caller r) → is_Some (safe_phone db caller r).
Proof.
  intros ->%updateRequestStatus_inv Hst caller r.
  unfold safe_phone.
  destruct (Sql.holds (Sql.eq3 (Some (requests.requester_id r)) caller));
    [done|].
  assert (Himp :
    has_approved_contact
      (with_contact_requests
         (status_updated uid id status now <$> tbl_contact_requests db) db)
      caller r = true →
    has_approved_contact db caller r = true).
  { unfold has_approved_contact.
    cbn [tbl_contact_requests with_contact_requests].
    rewrite !existsb_exists.
    intros (cr' & Hin & Happ). apply list_elem_of_In in Hin.
    apply list_elem_of_fmap in Hin as (cr & -> & Hcr).
    exists cr. split; [by apply list_elem_of_In|].
    unfold status_updated in Happ.
    destruct (_ && _); [|done].
    unfold approved_contact in Happ.
    rewrite !holds_and3, !andb_true_iff in Happ.
    destruct Happ as [_ Happ]. cbn in Happ.
    rewrite (bool_decide_eq_false_2 _ Hst) in Happ. done. }
  destruct (has_approved_contact (with_contact_requests _ _) caller r);
    [|by intros [? ?]].
  by rewrite Himp.
Qed.

Lemma non_approval_reveals_nothing_witness :
  ∃ db',
    updateRequestStatus (Some Sample.bob) 50 "declined" 300 Sample.db
    = Sql.Ok db'
    ∧ (is_Some (safe_phone db' (Some Sample.bob) Sample.open_request) →
       is_Some (safe_phone Sample.db (Some Sample.bob)
                  Sample.open_request)).
Proof.
  eexists. split; [vm_compute; reflexivity|].
  apply (non_approval_reveals_nothing (Some Sample.bob) 50 "declined" 300
           Sample.db); [vm_compute; reflexivity | discriminate].
Defined.

(** ** get_safe_profile_info *)

Lemma get_safe_profile_info_rows db u v :
  get_safe_profile_info db (Some u) v ≠ [] ↔
  ∃ pu pv,
    tbl_profiles db !! u = Some pu ∧ tbl_profiles db !! v = Some pv
    ∧ profiles.district pv = profiles.district pu.
Proof.
  unfold get_safe_profile_info, caller_district, caller_profile.
  cbn [mbind option_bind].
  destruct (tbl_profiles db !! v) as [pv|];
    [|split; [done|by intros (? & ? & _ & ? & _)]].
  destruct (tbl_profiles db !! u) as [pu|];
    cbn [fmap option_fmap option_map].
  - rewrite holds_eq3. case_bool_decide as Hd.
    + split; [by exists pu, pv|done].
    + split; [done|]. intros (? & ? & [= <-] & [= <-] & ?). done.
  - rewrite holds_eq3_null_r.
    split; [done|by intros (? & ? & ? & _)].
Qed.

(** X11: who may read whose profile through [get_safe_profile_info] is a
    symmetric and transitive relation; a user with a profile can read their
    own; a caller without a profile, or without a session, reads nobody's;
    and a call never returns more than the one row asked for. *)
Theorem get_safe_profile_info_same_district db :
  let reads := λ u v, get_safe_profile_info db (Some u) v ≠ [] in
  (∀ u v, reads u v → reads v u)
  ∧ (∀ u v w, reads u v → reads v w → reads u w)
  ∧ (∀ u, reads u u ↔ is_Some (tbl_profiles db !! u))
  ∧ (∀ u v, tbl_profiles db !! u = None →
            get_safe_profile_info db (Some u) v = [])
  ∧ (∀ v, get_safe_profile_info db None v = [])
  ∧ (∀ uid v,
       (length (get_safe_profile_info db uid v) <= 1)%nat
       ∧ Forall (λ row, safe_profiles.user_id row = v)
           (get_safe_profile_info db uid v)).
Proof.
  intros reads. unfold reads. repeat split.
  - intros u v (pu & pv & ? & ? & ?)%get_safe_profile_info_rows.
    apply get_safe_profile_info_rows. by exists pv, pu.
  - intros u v w (pu & pv & Hu & Hv & Huv)%get_safe_profile_info_rows
      (pv' & pw & Hv' & Hw & Hvw)%get_safe_profile_info_rows.
    apply get_safe_profile_info_rows. exists pu, pw.
    repeat split; [done..|]. congruence.
  - intros (pu & _ & -> & _)%get_safe_profile_info_rows. by eexists.
  - intros [pu Hu]. apply get_safe_profile_info_rows. by exists pu, pu.
  - intros u v Hu. unfold get_safe_profile_info, caller_district,
      caller_profile. cbn [mbind option_bind]. rewrite Hu.
    by destruct (tbl_profiles db !! v).
  - intros v. unfold get_safe_profile_info.
    by destruct (tbl_profiles db !! v).
  - unfold get_safe_profile_info. repeat case_match; simpl; lia.
  - unfold get_safe_profile_info.
    repeat case_match; by repeat constructor.
Qed.

Lemma get_safe_profile_info_same_district_witness :
  get_safe_profile_info Sample.db (Some Sample.bob) Sample.alice ≠ []
  ∧ get_safe_profile_info Sample.db (Some Sample.dave) Sample.alice = [].
Proof.
  destruct (get_safe_profile_info_same_district Sample.db)
    as (Hsym & _ & _ & Hnone & _).
  split.
  - apply (Hsym Sample.alice Sample.bob). discriminate.
  - apply (Hnone Sample.dave Sample.alice). reflexivity.
Defined.

(** ** Enum labels on the client and in the database *)

Lemma blood_group_in_out label b :
  blood_group_in label = Some b ↔ blood_group_out b = label.
Proof.
  split; [|by intros <-; destruct b].
  unfold blood_group_in. intros Hin.
  repeat case_match; simplify_eq; done.
Qed.

Lemma request_status_in_out label s :
  request_status_in label = Some s ↔ request_status_out s = label.
Proof.
  split; [|by intros <-; destruct s].
  unfold request_status_in. intros Hin.
  repeat case_match; simplify_eq; done.
Qed.

Lemma bloodGroups_cast label :
  label ∈ bloodGroups ↔ is_Some (blood_group_in label).
Proof.
  split.
  - intros Hx.
    repeat (apply elem_of_cons in Hx as [->|Hx]; [by eexists|]).
    by apply not_elem_of_nil in Hx.
  - intros [b <-%blood_group_in_out]. destruct b; solve_elem_of.
Qed.

(** X12: the blood-group labels offered by the forms, accepted by
    [bloodGroupSchema] and listed in the generated constants are exactly
    the labels that cast to the [blood_group] enum, and the listed
    [request_status] labels are exactly those that cast to
    [request_status]; casting a label and printing the value gives the
    label back. *)
Theorem enum_labels_agree label :
  (label ∈ bloodGroups ↔ is_Some (blood_group_in label))
  ∧ (bloodGroupSchema label = true ↔ is_Some (blood_group_in label))
  ∧ (label ∈ Constants_blood_group ↔ is_Some (blood_group_in label))
  ∧ (label ∈ Constants_request_status ↔
     is_Some (request_status_in label))
  ∧ (∀ b, blood_group_in label = Some b ↔ blood_group_out b = label)
  ∧ (∀ s,
       request_status_in label = Some s ↔ request_status_out s = label).
Proof.
  assert (Hbg : ∀ l : list string,
            (∀ b, blood_group_out b ∈ l) →
            (∀ x, x ∈ l → is_Some (blood_group_in x)) →
            label ∈ l ↔ is_Some (blood_group_in label)).
  { intros l Hall Hsome. split; [apply Hsome|].
    intros [b <-%blood_group_in_out]. apply Hall. }
  split; [|split; [|split; [|split; [|split]]]].
  - apply bloodGroups_cast.
  - unfold bloodGroupSchema. rewrite bool_decide_eq_true.
    apply Hbg; [intros []; solve_elem_of|].
    intros x Hx. repeat (apply elem_of_cons in Hx as [->|Hx]; [by eexists|]).
    by apply not_elem_of_nil in Hx.
  - apply Hbg; [intros []; solve_elem_of|].
    intros x Hx. repeat (apply elem_of_cons in Hx as [->|Hx]; [by eexists|]).
    by apply not_elem_of_nil in Hx.
  - split.
    + intros Hx.
      repeat (apply elem_of_cons in Hx as [->|Hx]; [by eexists|]).
      by apply not_elem_of_nil in Hx.
    + intros [s <-%request_status_in_out]. destruct s; solve_elem_of.
  - apply blood_group_in_out.
  - apply request_status_in_out.
Qed.

(** ** Sign-up and the feed *)

(** A caller's feed reads the caller's own profile, the requests and the
    contact requests, and nothing else. *)
Lemma get_safe_requests_frame db db' t v :
  tbl_profiles db' !! v = tbl_profiles db !! v →
  tbl_requests db' = tbl_requests db →
  tbl_contact_requests db' = tbl_contact_requests db →
  get_safe_requests db' t (Some v) = get_safe_requests db t (Some v).
Proof.
  intros Hp Hr Hcr. unfold get_safe_requests. rewrite Hr.
  assert (Hw : ∀ r, safe_where db' t (Some v) r = safe_where db t (Some v) r).
  { intros r. unfold safe_where, district_blood_match, caller_district,
      caller_blood_group, caller_profile. cbn [mbind option_bind].
    by rewrite Hp. }
  assert (Hs : ∀ r, safe_select db' (Some v) r = safe_select db (Some v) r).
  { intros r. unfold safe_select, safe_phone, has_approved_contact.
    by rewrite Hcr. }
  rewrite (list_filter_iff _
             (λ r, Sql.holds (safe_where db t (Some v) r) = true))
    by (intros r; by rewrite Hw).
  apply list_fmap_ext. intros i r _. apply Hs.
Qed.

Lemma onSignUp_metadata_lookup fullName phone district state bloodGroup :
  let meta := onSignUp_metadata fullName phone district state bloodGroup in
  meta !! "full_name" = Some fullName
  ∧ meta !! "phone" = Some phone
  ∧ meta !! "district" = Some district
  ∧ meta !! "state" = Some state
  ∧ meta !! "blood_group" = Some bloodGroup.
Proof. unfold onSignUp_metadata. by repeat split; simplify_map_eq. Qed.

Lemma insert_auth_user_inv u pid meta now db db' :
  insert_auth_user u pid meta now db = Sql.Ok db' →
  ∃ bg,
    blood_group_in (coalesce (meta !! "blood_group") "O+") = Some bg
    ∧ (u ∉ tbl_auth_users db)
    ∧ tbl_profiles db !! u = None
    ∧ (pid ∉ profiles.id <$> (map_to_list (tbl_profiles db)).*2)
    ∧ db' =
        with_profiles
          (<[u := {| profiles.id := pid;
                     profiles.full_name :=
                       coalesce (meta !! "full_name") "";
                     profiles.phone := coalesce (meta !! "phone") "";
                     profiles.district := coalesce (meta !! "district") "";
                     profiles.state := coalesce (meta !! "state") "";
                     profiles.blood_group := bg;
                     profiles.created_at := now;
                     profiles.updated_at := now;
                     profiles.is_confirmed := Some false |}]>
             (tbl_profiles db))
          (with_auth_users ({[u]} ∪ tbl_auth_users db) db).
Proof.
  unfold insert_auth_user, handle_new_user. intros Hrun.
  case_bool_decide as Hu; [done|].
  destruct (blood_group_in _) as [bg|]; [|done].
  cbn [tbl_profiles with_auth_users tbl_auth_users] in Hrun.
  case_bool_decide as Hpid; [done|].
  case_bool_decide as Hprofile; [done|].
  case_bool_decide as Hfk; [|done].
  cbn [negb] in Hrun. injection Hrun as <-.
  exists bg. repeat split; try done.
  by apply eq_None_not_Some.
Qed.

(** X13: once a user has signed up with a district and a blood group, their
    feed holds the stored requests of other users that are open, unexpired
    and in that district and blood group, and the feed of every other user
    is what it was before the sign-up. *)
Theorem sign_up_joins_feed u pid fullName phone district state bloodGroup
    bg now db db' :
  blood_group_in bloodGroup = Some bg →
  insert_auth_user u pid
    (onSignUp_metadata fullName phone district state bloodGroup) now db
  = Sql.Ok db' →
  (∀ t r,
     r ∈ tbl_requests db → requests.requester_id r ≠ u →
     safe_select db' (Some u) r ∈ get_safe_requests db' t (Some u) ↔
       requests.status r = open ∧ t < requests.expires_at r
       ∧ requests.district r = district ∧ requests.blood_group r = bg)
  ∧ (∀ t v, v ≠ u →
       get_safe_requests db' t (Some v) = get_safe_requests db t (Some v)).
Proof.
  intros Hbg (bg' & Hbg' & _ & _ & _ & ->)%insert_auth_user_inv.
  destruct (onSignUp_metadata_lookup fullName phone district state
              bloodGroup) as (_ & _ & Hd & _ & Hb).
  cbv zeta in Hd, Hb. rewrite Hb in Hbg'.
  change (blood_group_in bloodGroup = Some bg') in Hbg'.
  rewrite Hbg in Hbg'. injection Hbg' as <-. rewrite Hd.
  change (coalesce (Some district) "") with district.
  split.
  - intros t r Hr Hne.
    rewrite (safe_select_returned _ t (Some u) r) by exact Hr.
    by rewrite (safe_where_other _ t u _ r (lookup_insert_eq _ _ _) Hne).
  - intros t v Hv. apply get_safe_requests_frame; [|done..].
    cbn [tbl_profiles with_profiles with_auth_users].
    by rewrite lookup_insert_ne.
Qed.

Lemma sign_up_joins_feed_witness :
  ∃ db',
    insert_auth_user 9 109
      (onSignUp_metadata "Erin" "555-0109" "X" "S" "O+") 150 Sample.db
    = Sql.Ok db'
    ∧ safe_select db' (Some 9%N) Sample.open_request
        ∈ get_safe_requests db' Sample.now (Some 9%N).
Proof.
  eexists. split; [vm_compute; reflexivity|].
  eapply (sign_up_joins_feed 9 109 "Erin" "555-0109" "X" "S" "O+" O_pos 150
            Sample.db);
    [reflexivity | vm_compute; reflexivity | solve_elem_of
    | vm_compute; discriminate |].
  by repeat split.
Defined.

(** X14: [handle_new_user] gives a user whose metadata carries no blood
    group the group O+, and aborts the sign-up of a user whose blood-group
    label is none of the eight, the empty string included: no account and
    no profile are stored. *)
Theorem sign_up_blood_group_label u pid meta now db :
  (meta !! "blood_group" = None →
   ∀ db', insert_auth_user u pid meta now db = Sql.Ok db' →
          profiles.blood_group <$> tbl_profiles db' !! u = Some O_pos)
  ∧ (∀ label,
       meta !! "blood_group" = Some label →
       label ∉ bloodGroups →
       u ∉ tbl_auth_users db →
       insert_auth_user u pid meta now db
       = Sql.Error Sql.invalid_text_representation).
Proof.
  split.
  - intros Hnone db' (bg & Hbg & _ & _ & _ & ->)%insert_auth_user_inv.
    rewrite Hnone in Hbg. injection Hbg as <-.
    cbn [tbl_profiles with_profiles]. by rewrite lookup_insert_eq.
  - intros label Hlabel Hbad Hu. unfold insert_auth_user, handle_new_user.
    rewrite (bool_decide_eq_false_2 _ Hu), Hlabel.
    change (coalesce (Some label) "O+") with label.
    destruct (blood_group_in label) as [bg|] eqn:Hbg; [|done].
    destruct Hbad. apply bloodGroups_cast. by eexists.
Qed.

Lemma sign_up_blood_group_label_witness :
  insert_auth_user 9 109 (onSignUp_metadata "Erin" "555-0109" "X" "S" "")
    150 Sample.db
  = Sql.Error Sql.invalid_text_representation
  ∧ run (SignUp 9 109 "Erin" "555-0109" "X" "S" "") 150 Sample.db
    = Sample.db.
Proof.
  assert (Herr :
    insert_auth_user 9 109 (onSignUp_metadata "Erin" "555-0109" "X" "S" "")
      150 Sample.db
    = Sql.Error Sql.invalid_text_representation).
  { apply (proj2 (sign_up_blood_group_label 9 109
                    (onSignUp_metadata "Erin" "555-0109" "X" "S" "") 150
                    Sample.db) "");
      [reflexivity | by apply (bool_decide_unpack _)
      | by apply (bool_decide_unpack _)]. }
  split; [exact Herr|]. unfold run. by rewrite Herr.
Defined.

(** ** The constraints of the schema as an invariant *)

Lemma NoDup_fmap_filter {A B} (f : A → B) (P : A → Prop)
    `{!∀ x, Decision (P x)} (l : list A) :
  NoDup (f <$> l) → NoDup (f <$> filter P l).
Proof.
  induction l as [|x l IH]; [done|].
  rewrite fmap_cons, NoDup_cons, filter_cons. intros [Hx Hl].
  case_decide; [|by apply IH].
  rewrite fmap_cons, NoDup_cons. split; [|by apply IH].
  intros (y & Hy & [_ Hin]%list_elem_of_filter)%list_elem_of_fmap.
  apply Hx. rewrite Hy. by apply list_elem_of_fmap_2.
Qed.

Lemma NoDup_snoc_fresh {A} (l : list A) x :
  NoDup l → x ∉ l → NoDup (l ++ [x]).
Proof.
  intros Hl Hx. apply NoDup_app. split; [done|]. split.
  - by intros y Hy ->%list_elem_of_singleton.
  - apply NoDup_singleton.
Qed.

Lemma insert_request_inv uid new_id now requester_id label name phone
    district state location message db r db' :
  insert_request uid new_id now requester_id label name phone district
    state location message db = Sql.Ok (r, db') →
  db' = with_requests (tbl_requests db ++ [r]) db
  ∧ requests.id r = new_id
  ∧ requests.requester_id r = requester_id
  ∧ (new_id ∉ requests.id <$> tbl_requests db)
  ∧ is_Some (tbl_profiles db !! requester_id).
Proof.
  unfold insert_request. intros Hrun.
  destruct (blood_group_in label) as [bg|]; [|done].
  destruct (negb _); [done|].
  case_bool_decide as Hfresh; [done|].
  case_bool_decide as Hfk; [|done].
  cbn [negb] in Hrun. by injection Hrun as <- <-.
Qed.

Lemma insert_claim_inv uid new_id now request_id donor_id db db' :
  insert_claim uid new_id now request_id donor_id db = Sql.Ok db' →
  db' = with_claims
          (tbl_claims db ++ [new_claim new_id now request_id donor_id]) db
  ∧ (new_id ∉ claims.id <$> tbl_claims db)
  ∧ request_id ∈ requests.id <$> tbl_requests db.
Proof.
  unfold insert_claim. intros Hrun.
  destruct (negb _); [done|].
  case_bool_decide as Hfresh; [done|].
  case_bool_decide as Hfk; [|done].
  cbn [negb] in Hrun. by injection Hrun as <-.
Qed.

Lemma update_contact_request_row_check uid id status now cr cr' :
  update_contact_request_row uid id status now cr = Sql.Ok cr' →
  contact_requests.status_check cr = true →
  contact_requests.status_check cr' = true.
Proof.
  unfold update_contact_request_row. intros Hrun Hcheck.
  destruct (_ && _ && _); [|congruence].
  destruct (negb (_ && _)); [done|].
  destruct (contact_requests.status_check _) eqn:Hnew; [|done].
  cbn [negb] in Hrun. congruence.
Qed.

Lemma status_updated_columns uid id status now cr :
  contact_requests.id (status_updated uid id status now cr)
    = contact_requests.id cr
  ∧ contact_requests.request_id (status_updated uid id status now cr)
    = contact_requests.request_id cr
  ∧ contact_requests.donor_id (status_updated uid id status now cr)
    = contact_requests.donor_id cr
  ∧ contact_requests.requester_id (status_updated uid id status now cr)
    = contact_requests.requester_id cr.
Proof. unfold status_updated. by case_match. Qed.

Section preservation.

Context (db : database) (Hdb : consistent db).

Lemma consistent_sign_up u pid meta now db' :
  insert_auth_user u pid meta now db = Sql.Ok db' → consistent db'.
Proof.
  intros (bg & _ & Hu & Hnone & Hpid & ->)%insert_auth_user_inv.
  destruct Hdb. split; cbn [tbl_profiles tbl_requests tbl_claims
    tbl_contact_requests tbl_auth_users with_profiles with_auth_users];
    try done.
  - rewrite map_to_list_insert by done. cbn [fmap list_fmap snd].
    by apply NoDup_cons.
  - intros v. destruct (decide (v = u)) as [->|Hne].
    + intros _. apply elem_of_union. left. by apply elem_of_singleton.
    + rewrite lookup_insert_ne by done. intros Hv.
      apply elem_of_union. right. by apply profiles_user_id_fkey0.
  - eapply Forall_impl; [done|]. intros r Hr.
    destruct (decide (requests.requester_id r = u)) as [->|Hne].
    + rewrite lookup_insert_eq. by eexists.
    + by rewrite lookup_insert_ne.
  - eapply Forall_impl; [exact contact_requests_fkeys0|].
    intros cr (Hr & Hd & Hq).
    repeat split; [done|apply elem_of_union; by right..].
Qed.

Lemma consistent_insert_request uid new_id now requester_id label name
    phone district state location message r db' :
  insert_request uid new_id now requester_id label name phone district
    state location message db = Sql.Ok (r, db') →
  consistent db'.
Proof.
  intros (-> & Hid & Hreq & Hfresh & Hfk)%insert_request_inv.
  destruct Hdb. split; cbn [tbl_profiles tbl_requests tbl_claims
    tbl_contact_requests tbl_auth_users with_requests]; try done.
  - rewrite fmap_app. cbn [fmap list_fmap]. rewrite Hid.
    by apply NoDup_snoc_fresh.
  - apply Forall_app. split; [done|]. repeat constructor. by rewrite Hreq.
  - eapply Forall_impl; [done|]. intros c Hc.
    rewrite fmap_app. apply elem_of_app. by left.
  - eapply Forall_impl; [exact contact_requests_fkeys0|].
    intros cr (Hr & Hd & Hq).
    repeat split; [|done..]. rewrite fmap_app. apply elem_of_app. by left.
Qed.

Lemma consistent_delete_request uid request_id now :
  consistent (delete_request uid request_id now db).
Proof.
  destruct Hdb.
  assert (Hkept : ∀ x,
    x ∈ requests.id <$> tbl_requests db →
    x ∉ requests.id <$>
          filter (λ r, delete_target db now uid request_id r = true)
            (tbl_requests db) →
    x ∈ requests.id <$>
          filter (λ r, delete_target db now uid request_id r = false)
            (tbl_requests db)).
  { intros x (r & -> & Hr)%list_elem_of_fmap Hnot.
    apply list_elem_of_fmap_2, list_elem_of_filter. split; [|done].
    destruct (delete_target db now uid request_id r) eqn:Ht; [|done].
    destruct Hnot. by apply list_elem_of_fmap_2, list_elem_of_filter. }
  split; cbn [tbl_profiles tbl_requests tbl_claims tbl_contact_requests
    tbl_auth_users delete_request]; try done.
  - by apply NoDup_fmap_filter.
  - by apply NoDup_fmap_filter.
  - by apply NoDup_fmap_filter.
  - apply Forall_forall. intros r [_ Hr]%list_elem_of_filter.
    by eapply Forall_forall in requests_requester_id_fkey0.
  - apply Forall_forall. intros c [Hkeep Hc]%list_elem_of_filter.
    apply Hkept; [|done].
    by eapply Forall_forall in claims_request_id_fkey0.
  - apply Forall_forall. intros cr [Hkeep Hcr]%list_elem_of_filter.
    eapply Forall_forall in contact_requests_fkeys0 as (? & ? & ?);
      [|done].
    repeat split; [|done..]. by apply Hkept.
  - apply Forall_forall. intros cr [_ Hcr]%list_elem_of_filter.
    by eapply Forall_forall in contact_requests_status_check0.
Qed.

Lemma consistent_insert_claim uid new_id now request_id donor_id db' :
  insert_claim uid new_id now request_id donor_id db = Sql.Ok db' →
  consistent db'.
Proof.
  intros (-> & Hfresh & Hfk)%insert_claim_inv.
  destruct Hdb. split; cbn [tbl_profiles tbl_requests tbl_claims
    tbl_contact_requests tbl_auth_users with_claims]; try done.
  - rewrite fmap_app. by apply NoDup_snoc_fresh.
  - apply Forall_app. split; [done|]. by repeat constructor.
Qed.

Lemma consistent_insert_contact_request uid new_id now request_id donor_id
    requester_id message db' :
  insert_contact_request uid new_id now request_id donor_id requester_id
    message db = Sql.Ok db' →
  consistent db'.
Proof.
  intros (cr & -> & Hid & Hr & Hd & Hq & Hst & _ & Hfresh & Hfr & Hfd & Hfq)
    %insert_contact_request_inv.
  destruct Hdb. split; cbn [tbl_profiles tbl_requests tbl_claims
    tbl_contact_requests tbl_auth_users with_contact_requests]; try done.
  - rewrite fmap_app. cbn [fmap list_fmap]. rewrite Hid.
    by apply NoDup_snoc_fresh.
  - apply Forall_app. split; [done|]. apply Forall_singleton.
    by rewrite Hr, Hd, Hq.
  - apply Forall_app. split; [done|]. apply Forall_singleton.
    unfold contact_requests.status_check. by rewrite Hst.
Qed.

Lemma consistent_update_status uid id status now db' :
  updateRequestStatus uid id status now db = Sql.Ok db' → consistent db'.
Proof.
  intros Hrun. pose proof (updateRequestStatus_inv _ _ _ _ _ _ Hrun) as ->.
  unfold updateRequestStatus in Hrun.
  destruct (Sql.for_each_row _ _) as [crs|] eqn:Hrows; [|done].
  apply for_each_row_inv in Hrows. clear Hrun.
  destruct Hdb. split; cbn [tbl_profiles tbl_requests tbl_claims
    tbl_contact_requests tbl_auth_users with_contact_requests]; try done.
  - rewrite <- list_fmap_compose.
    erewrite list_fmap_ext; [done|]. intros i cr _.
    apply status_updated_columns.
  - apply Forall_fmap.
    eapply Forall_impl; [exact contact_requests_fkeys0|]. intros cr.
    cbv [compose].
    destruct (status_updated_columns uid id status now cr)
      as (_ & -> & -> & ->). done.
  - apply Forall_fmap, Forall_forall. intros cr Hcr. cbv [compose].
    eapply Forall_forall in contact_requests_status_check0; [|done].
    apply list_elem_of_lookup in Hcr as [i Hi].
    destruct (Forall2_lookup_l _ _ _ _ _ Hrows Hi) as (cr' & _ & Hrow).
    pose proof (update_contact_request_row_inv _ _ _ _ _ _ Hrow) as <-.
    by eapply update_contact_request_row_check.
Qed.

Lemma consistent_expire now : consistent (expire_old_requests now db).
Proof.
  destruct Hdb.
  assert (Hcols : ∀ r : requests.row,
    let r' :=
      if Sql.holds
           (Sql.and3 (Sql.eq3 (col (requests.status r)) (col open))
              (Sql.le3 (col (requests.expires_at r)) (col now)))
      then update_updated_at_column now (requests.set_status expired r)
      else r in
    requests.id r' = requests.id r
    ∧ requests.requester_id r' = requests.requester_id r).
  { intros r. cbv zeta. by case_match. }
  assert (Hids : requests.id <$> tbl_requests (expire_old_requests now db)
                 = requests.id <$> tbl_requests db).
  { unfold expire_old_requests. cbn [tbl_requests with_requests].
    rewrite <- list_fmap_compose. apply list_fmap_ext.
    intros i r _. apply Hcols. }
  split; try done.
  - by rewrite Hids.
  - unfold expire_old_requests. cbn [tbl_requests tbl_profiles
      with_requests].
    apply Forall_fmap. eapply Forall_impl; [done|]. intros r Hr.
    cbv [compose]. by rewrite (proj2 (Hcols r)).
  - by rewrite Hids.
  - by rewrite Hids.
Qed.

Lemma consistent_run s now : consistent (run s now db).
Proof.
  destruct s as [| | |u rid| | | | |]; cbn [run].
  - destruct (insert_auth_user _ _ _ _ _) eqn:Hrun; cbn; [|done].
    by eapply consistent_sign_up.
  - destruct (insert_request _ _ _ _ _ _ _ _ _ _ _ _) as [[r db']|]
      eqn:Hrun; [|done].
    by eapply consistent_insert_request.
  - apply consistent_delete_request.
  - by change (handleCancelRequest u rid now db)
      with (@Sql.Error database Sql.invalid_text_representation).
  - destruct (handleClaimRequest _ _ _ _ _) eqn:Hrun; cbn; [|done].
    by eapply consistent_insert_claim.
  - destruct (ContactRequestDialog_onSubmit _ _ _ _ _ _ _) eqn:Hrun; cbn;
      [|done].
    by eapply consistent_insert_contact_request.
  - destruct (DonorContactRequestDialog_onSubmit _ _ _ _ _ _ _) eqn:Hrun;
      cbn; [|done].
    by eapply consistent_insert_contact_request.
  - destruct (updateRequestStatus _ _ _ _ _) eqn:Hrun; cbn; [|done].
    by eapply consistent_update_status.
  - apply consistent_expire.
Qed.

End preservation.

Lemma consistent_empty : consistent empty_database.
Proof.
  split; cbn [empty_database tbl_auth_users tbl_profiles tbl_requests
    tbl_claims tbl_contact_requests]; try by constructor.
  intros u. rewrite lookup_empty. by intros [? ?].
Qed.

(** X15: whatever the clients do, the constraints of the schema hold: in
    every database reached from the empty one by sign-ups, new requests,
    cancellations, claims, contact requests from either dialog, status
    updates and expiry runs, primary keys are unique, every foreign key
    resolves (after a delete none dangles) and every contact request has one
    of the four statuses. *)
Theorem reachable_databases_consistent script :
  consistent (run_all script empty_database).
Proof.
  unfold run_all. generalize consistent_empty.
  generalize empty_database.
  induction script as [|[s now] script IH]; intros db Hdb; [done|].
  cbn [foldl]. apply IH. by apply consistent_run.
Qed.

(** ** The notification dispatcher *)

Lemma elem_of_eligibleUsers db request u :
  u ∈ (Notify.eligibleUsers db request).*1 ↔
  ∃ p, tbl_profiles db !! u = Some p
       ∧ profiles.district p = requests.district request
       ∧ profiles.blood_group p = requests.blood_group request
       ∧ u ≠ requests.requester_id request.
Proof.
  unfold Notify.eligibleUsers. rewrite list_elem_of_fmap. split.
  - intros ([u' p] & -> & [Hp Hin]%list_elem_of_filter).
    apply elem_of_map_to_list in Hin. by exists p.
  - intros (p & Hp & Hmatch). exists (u, p). split; [done|].
    apply list_elem_of_filter. split; [done|].
    by apply elem_of_map_to_list.
Qed.

(** X16: the users the dispatcher selects for a stored, open, unexpired
    request are exactly the users in whose 'Requests' tab the request
    appears. *)
Theorem notified_users_are_feed_users db t request u :
  request ∈ tbl_requests db →
  requests.status request = open →
  t < requests.expires_at request →
  u ∈ (Notify.eligibleUsers db request).*1 ↔
  safe_select db (Some u) request ∈ Dashboard.fetchRequests db t u.
Proof.
  intros Hr Hs He. rewrite elem_of_eligibleUsers.
  unfold Dashboard.fetchRequests. rewrite list_elem_of_filter.
  cbn [safe_select safe_requests.requester_id].
  rewrite (safe_select_returned _ _ _ _ Hr). split.
  - intros (p & Hp & Hd & Hb & Hne). split; [done|].
    by apply (safe_where_other db t u p).
  - intros [Hne Hw].
    destruct (tbl_profiles db !! u) as [p|] eqn:Hp.
    + pose proof (proj1 (safe_where_other db t u p request Hp Hne) Hw)
        as (_ & _ & Hd & Hb).
      by exists p.
    + rewrite safe_where_holds in Hw.
      destruct (caller_without_profile db u Hp) as [Hcd Hcb].
      unfold district_blood_match in Hw.
      rewrite Hcd, Hcb, holds_and3, !holds_eq3_null_r in Hw.
      rewrite (bool_decide_eq_false_2 _ Hne) in Hw.
      by rewrite andb_false_r in Hw.
Qed.

Lemma notified_users_are_feed_users_witness :
  Sample.bob ∈ (Notify.eligibleUsers Sample.db Sample.open_request).*1
  ∧ (Sample.alice
       ∉ (Notify.eligibleUsers Sample.db Sample.open_request).*1).
Proof.
  assert (Hr : Sample.open_request ∈ tbl_requests Sample.db)
    by solve_elem_of.
  split.
  - apply (notified_users_are_feed_users Sample.db Sample.now
             Sample.open_request Sample.bob Hr); [done..|].
    apply list_elem_of_filter. split; [vm_compute; discriminate|].
    apply elem_of_get_safe_requests. exists Sample.open_request.
    split; [reflexivity|]. split; [exact Hr|reflexivity].
  - intros Hin.
    apply (notified_users_are_feed_users Sample.db Sample.now
             Sample.open_request Sample.alice Hr) in Hin; [|done..].
    by apply list_elem_of_filter in Hin as [Hne _].
Defined.

Lemma single_request_stored db id request :
  Notify.single_request db id = Some request →
  request ∈ tbl_requests db ∧ requests.id request = id.
Proof.
  unfold Notify.single_request. intros Hone.
  destruct (filter _ _) as [|r [|? ?]] eqn:Hf; [done| |done].
  injection Hone as ->.
  assert (Hin : request ∈ filter (λ r, requests.id r = id) (tbl_requests db))
    by (rewrite Hf; solve_elem_of).
  apply list_elem_of_filter in Hin. tauto.
Qed.

Lemma userTokens_nil tokens : Notify.userTokens [] tokens = [].
Proof.
  unfold Notify.userTokens.
  induction tokens as [|tk tokens IH]; [done|].
  rewrite filter_cons, decide_False; [done|].
  by intros [?%not_elem_of_nil _].
Qed.

(** The handler run with a stored request and tokens to notify. *)
Lemma serve_with_tokens id db tokens env request :
  Notify.single_request db id = Some request →
  Notify.userTokens (Notify.eligibleUsers db request).*1 tokens ≠ [] →
  Notify.serve false (Some id) db tokens env =
    match env with
    | None => Notify.internal_error Notify.firebase_not_configured
    | Some serviceAccountJson =>
        if bool_decide (serviceAccountJson = "")
        then Notify.internal_error Notify.firebase_not_configured
        else
          Notify.parses_service_account serviceAccountJson request
            (Notify.userTokens (Notify.eligibleUsers db request).*1 tokens)
    end.
Proof.
  intros Hreq Hsome. unfold Notify.serve. rewrite Hreq.
  destruct (Notify.eligibleUsers db request) as [|user users] eqn:Husers.
  { destruct Hsome. apply userTokens_nil. }
  by destruct (Notify.userTokens _ tokens) as [|tk found] eqn:Hfound.
Qed.

Lemma serve_parses is_options requestId db tokens env account request
    found :
  Notify.serve is_options requestId db tokens env
  = Notify.parses_service_account account request found →
  ∃ id,
    requestId = Some id
    ∧ Notify.single_request db id = Some request
    ∧ env = Some account
    ∧ account ≠ ""
    ∧ found ≠ []
    ∧ found
      = Notify.userTokens (Notify.eligibleUsers db request).*1 tokens.
Proof.
  unfold Notify.serve. intros Hrun.
  destruct is_options; [done|].
  destruct requestId as [id|]; [|done].
  destruct (Notify.single_request db id) as [request'|] eqn:Hreq; [|done].
  destruct (Notify.eligibleUsers db request') as [|user users] eqn:Husers;
    [done|].
  destruct (Notify.userTokens _ tokens) as [|tk found'] eqn:Hfound; [done|].
  destruct env as [account'|]; [|done].
  case_bool_decide as Hempty; [done|].
  injection Hrun as <- <- <-.
  exists id. repeat split; try done. by rewrite Husers, Hfound.
Qed.

(** X17: when the dispatcher gets as far as parsing the Firebase service
    account, [FIREBASE_SERVICE_ACCOUNT_JSON] holds a text that is not empty,
    the request with the given id is stored, and the tokens the dispatcher
    goes on with are exactly the Android tokens of the users, other than the
    requester, with a profile in the request's district and blood group;
    there is at least one. *)
Theorem dispatcher_recipients is_options requestId db tokens env account
    request found :
  Notify.serve is_options requestId db tokens env
  = Notify.parses_service_account account request found →
  env = Some account
  ∧ account ≠ ""
  ∧ request ∈ tbl_requests db
  ∧ requestId = Some (requests.id request)
  ∧ found ≠ []
  ∧ ∀ tk,
      tk ∈ found ↔
      tk ∈ tokens
      ∧ user_tokens.platform tk = "android"
      ∧ user_tokens.user_id tk ≠ requests.requester_id request
      ∧ ∃ p, tbl_profiles db !! user_tokens.user_id tk = Some p
             ∧ profiles.district p = requests.district request
             ∧ profiles.blood_group p = requests.blood_group request.
Proof.
  intros (id & -> & Hreq & -> & Hne & Hsome & ->)%serve_parses.
  apply single_request_stored in Hreq as [Hstored <-].
  do 5 (split; [done|]). intros tk. split.
  - intros [[Huser Hplatform] Htk]%list_elem_of_filter.
    apply elem_of_eligibleUsers in Huser as (p & Hp & Hd & Hb & Hu).
    repeat split; try done. by exists p.
  - intros (Htk & Hplatform & Hu & p & Hp & Hd & Hb).
    apply list_elem_of_filter. split; [|done]. split; [|done].
    apply elem_of_eligibleUsers. by exists p.
Qed.

Lemma dispatcher_recipients_witness :
  Notify.serve false (Some 10%N) Sample.db SampleTokens.tokens (Some "{}")
  = Notify.parses_service_account "{}" Sample.open_request
      [SampleTokens.device 901 Sample.bob "fcm-bob" "android"]
  ∧ (SampleTokens.device 900 Sample.alice "fcm-alice" "android"
       ∉ [SampleTokens.device 901 Sample.bob "fcm-bob" "android"])
  ∧ Sample.open_request ∈ tbl_requests Sample.db.
Proof.
  assert (Hrun :
    Notify.serve false (Some 10%N) Sample.db SampleTokens.tokens (Some "{}")
    = Notify.parses_service_account "{}" Sample.open_request
        [SampleTokens.device 901 Sample.bob "fcm-bob" "android"])
    by (vm_compute; reflexivity).
  destruct (dispatcher_recipients _ _ _ _ _ _ _ _ Hrun)
    as (_ & _ & Hstored & _ & _ & Hfound).
  split; [exact Hrun|]. split; [|exact Hstored].
  intros (_ & _ & Hne & _)%Hfound. by apply Hne.
Defined.

(** X18: the dispatcher answers with an error for a missing request id and
    for an id that does not name one stored request.  With nobody to notify
    it succeeds whatever the Firebase configuration.  With tokens to notify
    it answers with an error when [FIREBASE_SERVICE_ACCOUNT_JSON] is unset
    or empty, and otherwise goes on to parse it, with the stored request and
    the tokens it has found. *)
Theorem dispatcher_outcomes db tokens env :
  Notify.serve false None db tokens env
  = Notify.internal_error Notify.request_id_required
  ∧ (∀ id,
       id ∉ requests.id <$> tbl_requests db →
       Notify.serve false (Some id) db tokens env
       = Notify.internal_error Notify.failed_to_fetch_request)
  ∧ (∀ id request,
       Notify.single_request db id = Some request →
       Notify.userTokens (Notify.eligibleUsers db request).*1 tokens = [] →
       Notify.serve false (Some id) db tokens env = Notify.no_eligible_users
       ∨ Notify.serve false (Some id) db tokens env
         = Notify.no_device_tokens)
  ∧ (∀ id request,
       Notify.single_request db id = Some request →
       Notify.userTokens (Notify.eligibleUsers db request).*1 tokens ≠ [] →
       env = None ∨ env = Some "" →
       Notify.serve false (Some id) db tokens env
       = Notify.internal_error Notify.firebase_not_configured)
  ∧ (∀ id request account,
       Notify.single_request db id = Some request →
       Notify.userTokens (Notify.eligibleUsers db request).*1 tokens ≠ [] →
       env = Some account →
       account ≠ "" →
       Notify.serve false (Some id) db tokens env
       = Notify.parses_service_account account request
           (Notify.userTokens (Notify.eligibleUsers db request).*1 tokens)).
Proof.
  split; [done|]. split; [|split; [|split]].
  - intros id Hid. unfold Notify.serve, Notify.single_request.
    destruct (filter _ _) as [|r [|? ?]] eqn:Hf; [done| |done].
    destruct Hid.
    assert (Hin : r ∈ filter (λ r, requests.id r = id) (tbl_requests db))
      by (rewrite Hf; solve_elem_of).
    apply list_elem_of_filter in Hin as [<- Hin].
    by apply list_elem_of_fmap_2.
  - intros id request Hreq Hnone. unfold Notify.serve. rewrite Hreq.
    destruct (Notify.eligibleUsers db request) as [|user users];
      [by left|].
    rewrite Hnone. by right.
  - intros id request Hreq Hsome Henv.
    rewrite (serve_with_tokens _ _ _ _ _ Hreq Hsome).
    by destruct Henv as [->| ->].
  - intros id request account Hreq Hsome -> Hne.
    rewrite (serve_with_tokens _ _ _ _ _ Hreq Hsome).
    by rewrite bool_decide_eq_false_2.
Qed.

Lemma dispatcher_outcomes_witness :
  Notify.serve false (Some 77%N) Sample.db SampleTokens.tokens None
  = Notify.internal_error Notify.failed_to_fetch_request
  ∧ Notify.serve false (Some 10%N) Sample.db SampleTokens.tokens None
    = Notify.internal_error Notify.firebase_not_configured
  ∧ Notify.serve false (Some 10%N) Sample.db SampleTokens.tokens (Some "")
    = Notify.internal_error Notify.firebase_not_configured
  ∧ (Notify.serve false (Some 10%N) Sample.db [] None
     = Notify.no_eligible_users
     ∨ Notify.serve false (Some 10%N) Sample.db [] None
       = Notify.no_device_tokens).
Proof.
  split; [|split; [|split]].
  - apply (dispatcher_outcomes Sample.db SampleTokens.tokens None).
    by apply (bool_decide_unpack _).
  - destruct (dispatcher_outcomes Sample.db SampleTokens.tokens None)
      as (_ & _ & _ & Herror & _).
    apply (Herror 10%N Sample.open_request);
      [reflexivity | vm_compute; discriminate | by left].
  - destruct (dispatcher_outcomes Sample.db SampleTokens.tokens (Some ""))
      as (_ & _ & _ & Herror & _).
    apply (Herror 10%N Sample.open_request);
      [reflexivity | vm_compute; discriminate | by right].
  - destruct (dispatcher_outcomes Sample.db [] None)
      as (_ & _ & Hnobody & _).
    apply (Hnobody 10%N Sample.open_request); reflexivity.
Defined.

(** ** Device tokens *)

Lemma holds_user_tokens_policy u tk :
  Sql.holds (user_tokens_policy (Some u) tk) = true ↔
  user_tokens.user_id tk = u.
Proof.
  unfold user_tokens_policy. rewrite holds_eq3, bool_decide_eq_true.
  split; congruence.
Qed.

Lemma elem_of_own_token_rows u t tokens tk :
  tk ∈ own_token_rows u t tokens ↔
  tk ∈ tokens ∧ user_tokens.user_id tk = u ∧ user_tokens.token tk = t.
Proof.
  unfold own_token_rows. rewrite list_elem_of_filter.
  rewrite holds_user_tokens_policy. tauto.
Qed.

Lemma own_token_rows_absent u t tokens :
  t ∉ user_tokens.token <$> tokens → own_token_rows u t tokens = [].
Proof.
  intros Ht. destruct (own_token_rows u t tokens) as [|tk rest] eqn:Hrows;
    [done|].
  assert (Hin : tk ∈ own_token_rows u t tokens) by (rewrite Hrows; left).
  apply elem_of_own_token_rows in Hin as (Hin & _ & <-).
  destruct Ht. by apply list_elem_of_fmap_2.
Qed.

Lemma registerDeviceToken_inv u t new_id now tokens tokens' :
  registerDeviceToken u t new_id now tokens = Sql.Ok tokens' →
  (tokens' = tokens ∧ ∃ tk, own_token_rows u t tokens = [tk])
  ∨ (tokens' =
       (tokens ++
          [{| user_tokens.id := new_id; user_tokens.user_id := u;
              user_tokens.token := t; user_tokens.platform := "android";
              user_tokens.created_at := now;
              user_tokens.updated_at := now |}])%list
     ∧ (t ∉ user_tokens.token <$> tokens)
     ∧ (new_id ∉ user_tokens.id <$> tokens)).
Proof.
  unfold registerDeviceToken. intros Hrun.
  destruct (own_token_rows u t tokens) as [|tk [|? ?]] eqn:Hrows.
  2: { left. injection Hrun as <-. by eauto. }
  all: right; destruct (negb _); [done|];
    case_bool_decide as Hid; [done|];
    case_bool_decide as Htoken; [done|];
    by injection Hrun as <-.
Qed.

Lemma own_token_rows_snoc u t tokens new_id platform c1 c2 :
  t ∉ user_tokens.token <$> tokens →
  own_token_rows u t
    (tokens ++
       [{| user_tokens.id := new_id; user_tokens.user_id := u;
           user_tokens.token := t; user_tokens.platform := platform;
           user_tokens.created_at := c1; user_tokens.updated_at := c2 |}])
  = [{| user_tokens.id := new_id; user_tokens.user_id := u;
        user_tokens.token := t; user_tokens.platform := platform;
        user_tokens.created_at := c1; user_tokens.updated_at := c2 |}].
Proof.
  intros Ht. unfold own_token_rows at 1. rewrite filter_app.
  fold (own_token_rows u t tokens). rewrite own_token_rows_absent by done.
  rewrite filter_cons, decide_True; [done|].
  by rewrite holds_user_tokens_policy.
Qed.

(** X19: after a successful [registerDeviceToken] the token is reported as
    registered, registering it again writes nothing, tokens stay unique
    over the table, and [unregisterDeviceToken] takes the table back to
    what it was if the token had not been registered before; after
    unregistering, the token is reported as not registered. *)
Theorem device_token_round_trip u t new_id now tokens tokens' :
  NoDup (user_tokens.token <$> tokens) →
  registerDeviceToken u t new_id now tokens = Sql.Ok tokens' →
  checkTokenRegistration u t tokens' = true
  ∧ (∀ id' now', registerDeviceToken u t id' now' tokens' = Sql.Ok tokens')
  ∧ NoDup (user_tokens.token <$> tokens')
  ∧ (checkTokenRegistration u t tokens = false →
     unregisterDeviceToken u t tokens' = tokens)
  ∧ checkTokenRegistration u t (unregisterDeviceToken u t tokens') = false.
Proof.
  intros Huniq Hrun.
  assert (Hafter : checkTokenRegistration u t
                     (unregisterDeviceToken u t tokens') = false).
  { unfold checkTokenRegistration.
    destruct (own_token_rows u t _) as [|tk rest] eqn:Hrows; [done|].
    assert (Hin : tk ∈ own_token_rows u t (unregisterDeviceToken u t tokens'))
      by (rewrite Hrows; left).
    apply elem_of_own_token_rows in Hin as (Hin & Hu & Ht).
    apply list_elem_of_filter in Hin as [Hkeep _]. destruct Hkeep.
    by rewrite holds_user_tokens_policy. }
  apply registerDeviceToken_inv in Hrun
    as [[-> [tk Hrows]] | (-> & Ht & Hid)].
  - unfold checkTokenRegistration, registerDeviceToken. rewrite Hrows.
    by repeat split.
  - unfold checkTokenRegistration at 1, registerDeviceToken.
    rewrite own_token_rows_snoc by done.
    repeat split; try done.
    + rewrite fmap_app. by apply NoDup_snoc_fresh.
    + intros _. unfold unregisterDeviceToken. rewrite filter_app.
      rewrite filter_all.
      * rewrite filter_cons, decide_False; [by rewrite app_nil_r|].
        intros Hkeep. apply Hkeep. by rewrite holds_user_tokens_policy.
      * apply Forall_forall. intros tk Htk (_ & _ & Htoken).
        apply Ht. rewrite <- Htoken. by apply list_elem_of_fmap_2.
Qed.

Lemma device_token_round_trip_witness :
  ∃ tokens',
    registerDeviceToken Sample.carol "fcm-carol-2" 903 500
      SampleTokens.tokens = Sql.Ok tokens'
    ∧ checkTokenRegistration Sample.carol "fcm-carol-2" tokens' = true
    ∧ unregisterDeviceToken Sample.carol "fcm-carol-2" tokens'
      = SampleTokens.tokens.
Proof.
  eexists. split; [vm_compute; reflexivity|].
  destruct (device_token_round_trip Sample.carol "fcm-carol-2" 903 500
              SampleTokens.tokens
              (SampleTokens.tokens
                 ++ [{| user_tokens.id := 903;
                        user_tokens.user_id := Sample.carol;
                        user_tokens.token := "fcm-carol-2";
                        user_tokens.platform := "android";
                        user_tokens.created_at := 500;
                        user_tokens.updated_at := 500 |}])%list)
    as (Hcheck & _ & _ & Hback & _);
    [by apply (bool_decide_unpack _) | vm_compute; reflexivity |].
  split; [exact Hcheck | by apply Hback].
Defined.

(** X20: a device token belongs to one user: while another user holds it,
    [registerDeviceToken] fails with a unique violation, and neither
    registering nor unregistering touches a row of another user. *)
Theorem device_tokens_isolated u t new_id now tokens :
  (∀ tk, tk ∈ tokens → user_tokens.token tk = t →
         user_tokens.user_id tk ≠ u →
         NoDup (user_tokens.token <$> tokens) →
         registerDeviceToken u t new_id now tokens
         = Sql.Error Sql.unique_violation)
  ∧ (∀ tokens',
       registerDeviceToken u t new_id now tokens = Sql.Ok tokens' →
       filter (λ tk, user_tokens.user_id tk ≠ u) tokens'
       = filter (λ tk, user_tokens.user_id tk ≠ u) tokens)
  ∧ filter (λ tk, user_tokens.user_id tk ≠ u)
      (unregisterDeviceToken u t tokens)
    = filter (λ tk, user_tokens.user_id tk ≠ u) tokens.
Proof.
  split; [|split].
  - intros tk Htk Ht Hother Huniq.
    assert (Hnone : own_token_rows u t tokens = []).
    { destruct (own_token_rows u t tokens) as [|tk' rest] eqn:Hrows;
        [done|].
      assert (Hin : tk' ∈ own_token_rows u t tokens)
        by (rewrite Hrows; left).
      apply elem_of_own_token_rows in Hin as (Hin & Hu & Ht').
      destruct Hother. rewrite <- Hu. f_equal.
      apply (NoDup_fmap_eq user_tokens.token tokens); [done..|congruence]. }
    unfold registerDeviceToken. rewrite Hnone.
    rewrite (proj2 (holds_user_tokens_policy u _)) by done. cbn [negb].
    case_bool_decide; [done|].
    rewrite bool_decide_eq_true_2; [done|].
    rewrite <- Ht. by apply list_elem_of_fmap_2.
  - intros tokens' [[-> _] | (-> & _ & _)]%registerDeviceToken_inv;
      [done|].
    rewrite filter_app, filter_cons, decide_False by (by intros []).
    by rewrite app_nil_r.
  - unfold unregisterDeviceToken. rewrite list_filter_filter.
    apply list_filter_iff. intros tk. split; [tauto|].
    intros Hne. split; [done|]. by intros (_ & ? & _).
Qed.

Lemma device_tokens_isolated_witness :
  registerDeviceToken Sample.carol "fcm-bob" 903 500 SampleTokens.tokens
  = Sql.Error Sql.unique_violation.
Proof.
  apply (proj1 (device_tokens_isolated Sample.carol "fcm-bob" 903 500
                  SampleTokens.tokens)
           (SampleTokens.device 901 Sample.bob "fcm-bob" "android"));
    [solve_elem_of | reflexivity | vm_compute; discriminate
    | by apply (bool_decide_unpack _)].
Defined.

(** ** Contact request counts *)

Lemma count_rows_lookup rows counts request_id :
  Dashboard.contactCount (foldl Dashboard.count_row counts rows) request_id
  = (Dashboard.contactCount counts request_id
     + length (filter (λ cr, contact_requests.request_id cr = request_id)
                 rows))%nat.
Proof.
  revert counts. induction rows as [|cr rows IH]; intros counts.
  - cbn. lia.
  - cbn [foldl]. rewrite IH, filter_cons.
    unfold Dashboard.contactCount, Dashboard.count_row.
    destruct (decide (contact_requests.request_id cr = request_id))
      as [->|Hne].
    + rewrite lookup_insert_eq. cbn. lia.
    + by rewrite lookup_insert_ne.
Qed.

(** X21: [fetchContactRequestCounts] counts, for each request, the contact
    requests in which the caller is the donor; a request without any has no
    entry and reads as zero. *)
Theorem contact_request_counts db u request_id :
  Dashboard.contactCount (Dashboard.fetchContactRequestCounts db u)
    request_id
  = length
      (filter (λ cr, contact_requests.donor_id cr = u
                     ∧ contact_requests.request_id cr = request_id)
         (tbl_contact_requests db))
  ∧ (Dashboard.fetchContactRequestCounts db u !! request_id = None ↔
     Dashboard.contactCount (Dashboard.fetchContactRequestCounts db u)
       request_id = 0%nat).
Proof.
  split.
  - unfold Dashboard.fetchContactRequestCounts.
    rewrite count_rows_lookup. unfold Dashboard.contactCount at 1.
    rewrite lookup_empty. cbn [default from_option id plus].
    rewrite list_filter_filter. f_equal. apply list_filter_iff.
    intros cr. unfold contact_requests_select_policy.
    rewrite holds_or3, !holds_eq3, orb_true_iff, !bool_decide_eq_true.
    split; [tauto|]. intros [<- ?]. tauto.
  - unfold Dashboard.fetchContactRequestCounts.
    generalize (filter
      (λ cr, Sql.holds (contact_requests_select_policy (Some u) cr) = true
             ∧ contact_requests.donor_id cr = u)
      (tbl_contact_requests db)).
    intros rows.
    assert (Hpos : ∀ l counts,
              (∀ k n, counts !! k = Some n → (0 < n)%nat) →
              ∀ k n, foldl Dashboard.count_row counts l !! k = Some n →
                     (0 < n)%nat).
    { induction l as [|cr l IH]; intros counts Hcounts; [done|].
      cbn [foldl]. apply IH. intros k n. unfold Dashboard.count_row.
      destruct (decide (contact_requests.request_id cr = k)) as [->|Hne].
      - rewrite lookup_insert_eq. intros [= <-]. lia.
      - rewrite lookup_insert_ne by done. apply Hcounts. }
    unfold Dashboard.contactCount.
    destruct (foldl Dashboard.count_row ∅ rows !! request_id) as [n|]
      eqn:Hn; [|done].
    apply Hpos in Hn; [|by intros k m; rewrite lookup_empty].
    cbn. split; [done|lia].
Qed.

(** ** The message of a contact request *)

Lemma trim_start_suffix s :
  ∃ spaces : list N,
    s = (spaces ++ Validation.trim_start s)%list
    ∧ Forall (λ c, Validation.is_white_space c = true) spaces.
Proof.
  induction s as [|c s (spaces & Hs & Hspaces)]; [by exists []|].
  cbn [Validation.trim_start].
  destruct (Validation.is_white_space c) eqn:Hc.
  - exists (c :: spaces). split; [by rewrite Hs at 1|]. by constructor.
  - by exists [].
Qed.

Lemma trim_start_head s :
  head (Validation.trim_start s) = None
  ∨ ∃ c, head (Validation.trim_start s) = Some c
         ∧ Validation.is_white_space c = false.
Proof.
  induction s as [|c s IH]; [by left|]. cbn [Validation.trim_start].
  destruct (Validation.is_white_space c) eqn:Hc; [done|].
  right. by exists c.
Qed.

Lemma trim_start_clean s :
  (∀ c, head s = Some c → Validation.is_white_space c = false) →
  Validation.trim_start s = s.
Proof.
  destruct s as [|c s]; [done|]. intros Hc. cbn [Validation.trim_start].
  by rewrite (Hc c eq_refl).
Qed.

Lemma trim_ends s :
  (∀ c, head (Validation.trim s) = Some c →
        Validation.is_white_space c = false)
  ∧ (∀ c, last (Validation.trim s) = Some c →
          Validation.is_white_space c = false).
Proof.
  unfold Validation.trim. split; intros c.
  - rewrite head_reverse.
    destruct (trim_start_suffix (reverse (Validation.trim_start s)))
      as (spaces & Hs & _).
    destruct (Validation.trim_start (reverse (Validation.trim_start s)))
      as [|d l] eqn:Hl using rev_ind; [done|].
    clear IHl. rewrite last_snoc. intros [= ->].
    assert (Hlast : last (reverse (Validation.trim_start s)) = Some c).
    { rewrite Hs, app_assoc. apply last_snoc. }
    rewrite last_reverse in Hlast.
    destruct (trim_start_head s) as [Hnone | (d & Hd & Hclean)];
      congruence.
  - rewrite last_reverse.
    destruct (trim_start_head (reverse (Validation.trim_start s)))
      as [Hnone | (d & Hd & Hclean)]; congruence.
Qed.

Lemma trim_idempotent s :
  Validation.trim (Validation.trim s) = Validation.trim s.
Proof.
  destruct (trim_ends s) as [Hhead Hlast].
  unfold Validation.trim at 1.
  rewrite (trim_start_clean _ Hhead).
  rewrite trim_start_clean.
  - apply reverse_involutive.
  - intros c. rewrite head_reverse. apply Hlast.
Qed.

(** X22: a message accepted by [contactRequestSchema] is stored trimmed: the
    parsed value has between 10 and 500 code units, neither starts nor ends
    with white space, and is accepted unchanged when parsed again; a message
    of white space only is rejected as too small. *)
Theorem contact_message_is_trimmed message :
  (∀ parsed,
     Validation.contactRequestSchema message = inr parsed →
     (10 <= length parsed <= 500)%nat
     ∧ (∀ c, head parsed = Some c → Validation.is_white_space c = false)
     ∧ (∀ c, last parsed = Some c → Validation.is_white_space c = false)
     ∧ Validation.contactRequestSchema parsed = inr parsed)
  ∧ (Forall (λ c, Validation.is_white_space c = true) message →
     Validation.contactRequestSchema message = inl Validation.too_small).
Proof.
  split.
  - unfold Validation.contactRequestSchema. intros parsed Hparse.
    case_bool_decide as Hmin; [done|].
    case_bool_decide as Hmax; [done|].
    injection Hparse as <-.
    destruct (trim_ends message) as [Hhead Hlast].
    rewrite trim_idempotent.
    rewrite !bool_decide_eq_false_2 by done.
    repeat split; [lia|lia|done..].
  - intros Hspaces. unfold Validation.contactRequestSchema.
    assert (Hempty : Validation.trim_start message = []).
    { induction Hspaces as [|c s Hc _ IH]; [done|].
      cbn [Validation.trim_start]. by rewrite Hc. }
    unfold Validation.trim. rewrite Hempty. cbn.
    by rewrite bool_decide_eq_true_2 by lia.
Qed.

Lemma contact_message_is_trimmed_witness :
  Validation.contactRequestSchema [32; 9; 10; 160]%N
  = inl Validation.too_small
  ∧ Validation.contactRequestSchema
      [32; 80; 108; 101; 97; 115; 101; 32; 104; 101; 108; 112; 10]%N
    = inr [80; 108; 101; 97; 115; 101; 32; 104; 101; 108; 112]%N.
Proof.
  split.
  - apply (proj2 (contact_message_is_trimmed [32; 9; 10; 160]%N)).
    by repeat constructor.
  - assert (Hparse :
      Validation.contactRequestSchema
        [32; 80; 108; 101; 97; 115; 101; 32; 104; 101; 108; 112; 10]%N
      = inr [80; 108; 101; 97; 115; 101; 32; 104; 101; 108; 112]%N)
      by (vm_compute; reflexivity).
    destruct (proj1 (contact_message_is_trimmed _) _ Hparse) as (_ & _).
    exact Hparse.
Defined.

(** ** Editing a profile and the feed *)

(** X23: after a user saves their profile with a new district and blood
    group, their feed holds the stored requests of other users that are
    open, unexpired and match the new values, while the profile and the feed
    of every other user are untouched. *)
Theorem profile_update_retargets_feed u full_name phone district state
    blood_group bg now db db' :
  is_Some (tbl_profiles db !! u) →
  blood_group_in blood_group = Some bg →
  Profile_onSubmit u full_name phone district state blood_group now db
  = Sql.Ok db' →
  (∀ t r,
     r ∈ tbl_requests db → requests.requester_id r ≠ u →
     safe_select db' (Some u) r ∈ get_safe_requests db' t (Some u) ↔
       requests.status r = open ∧ t < requests.expires_at r
       ∧ requests.district r = district ∧ requests.blood_group r = bg)
  ∧ (∀ v, v ≠ u →
       tbl_profiles db' !! v = tbl_profiles db !! v
       ∧ ∀ t, get_safe_requests db' t (Some v)
              = get_safe_requests db t (Some v)).
Proof.
  intros [p Hp] Hbg. unfold Profile_onSubmit, update_profile.
  rewrite Hbg. unfold profiles_own_policy.
  rewrite holds_eq3, bool_decide_eq_true_2 by done. intros [= <-].
  split.
  - intros t r Hr Hne.
    rewrite (safe_select_returned _ t (Some u) r) by exact Hr.
    rewrite (safe_where_other _ t u
               {| profiles.id := profiles.id p;
                  profiles.full_name := full_name;
                  profiles.phone := phone;
                  profiles.district := district;
                  profiles.state := state;
                  profiles.blood_group := bg;
                  profiles.created_at := profiles.created_at p;
                  profiles.updated_at := now;
                  profiles.is_confirmed := profiles.is_confirmed p |} r);
      [done| |done].
    cbn [tbl_profiles with_profiles]. by rewrite lookup_alter_eq, Hp.
  - intros v Hv. split.
    + cbn [tbl_profiles with_profiles]. by rewrite lookup_alter_ne.
    + intros t. apply get_safe_requests_frame; [|done..].
      cbn [tbl_profiles with_profiles]. by rewrite lookup_alter_ne.
Qed.

Lemma profile_update_retargets_feed_witness :
  ∃ db',
    Profile_onSubmit Sample.carol "Carol" "555-0103" "X" "S" "O+" 300
      Sample.db = Sql.Ok db'
    ∧ safe_select db' (Some Sample.carol) Sample.open_request
        ∈ get_safe_requests db' 300 (Some Sample.carol).
Proof.
  eexists. split; [vm_compute; reflexivity|].
  eapply (profile_update_retargets_feed Sample.carol "Carol" "555-0103" "X"
            "S" "O+" O_pos 300 Sample.db);
    [by eexists | reflexivity | vm_compute; reflexivity | solve_elem_of
    | vm_compute; discriminate |].
  by repeat split.
Defined.

(** ** Claims and status updates on requests *)

(** X24: a claim unlocks nothing in [get_safe_requests]: after a claim is
    stored, every caller reads the same rows, with the same phone fields,
    as before. *)
Theorem claim_reveals_nothing u new_id now request_id db db' :
  handleClaimRequest u new_id now request_id db = Sql.Ok db' →
  ∀ t caller, get_safe_requests db' t caller = get_safe_requests db t caller.
Proof. by intros (-> & _)%insert_claim_inv t caller. Qed.

Lemma claim_reveals_nothing_witness :
  ∃ db',
    handleClaimRequest Sample.bob 70 Sample.now 10 Sample.db = Sql.Ok db'
    ∧ get_safe_requests db' Sample.now (Some Sample.bob)
      = get_safe_requests Sample.db Sample.now (Some Sample.bob).
Proof.
  eexists. split; [reflexivity|].
  apply (claim_reveals_nothing Sample.bob 70 Sample.now 10 Sample.db).
  reflexivity.
Defined.

Lemma select_policy_open db now uid r :
  Sql.holds (requests_select_policy db now uid r) = true →
  requests.status r = open.
Proof.
  unfold requests_select_policy.
  rewrite !holds_and3, holds_eq3, !andb_true_iff, bool_decide_eq_true.
  tauto.
Qed.

Lemma update_request_row_inv db uid request_id s now r r' :
  update_request_row db uid request_id s now r = Sql.Ok r' →
  r' = r ∨ (r' = requests.set_updated_at now r ∧ requests.status r = open).
Proof.
  unfold update_request_row.
  set (new := update_updated_at_column now (requests.set_status s r)).
  destruct (Sql.holds (requests_select_policy db now uid r)) eqn:Hold.
  2: { rewrite andb_false_r. cbn [andb]. left. congruence. }
  destruct (bool_decide (requests.id r = request_id)
            && true && Sql.holds (requests_update_policy uid r));
    [|left; congruence].
  destruct (Sql.holds (requests_select_policy db now uid new)) eqn:Hnew.
  2: { rewrite andb_false_r. done. }
  destruct (Sql.holds (requests_update_policy uid new)); [|done].
  cbn [andb]. intros [= <-]. right.
  apply select_policy_open in Hold, Hnew.
  cbn [new requests.status update_updated_at_column requests.set_updated_at
    requests.set_status] in Hnew.
  split; [|done]. unfold new. subst s. by destruct r; simplify_eq/=.
Qed.

(** X25: no status update sent through the table changes the status of a
    request: when [update_request_status] succeeds, every request is stored
    as before, except that [updated_at] may be stamped on a row that was
    and stays open.  Only [expire_old_requests] moves a request out of
    'open'. *)
Theorem client_cannot_change_request_status uid request_id label now db
    db' :
  update_request_status uid request_id label now db = Sql.Ok db' →
  Forall2
    (λ r r', r' = r
             ∨ (r' = requests.set_updated_at now r
                ∧ requests.status r = open))
    (tbl_requests db) (tbl_requests db')
  ∧ requests.status <$> tbl_requests db'
    = requests.status <$> tbl_requests db.
Proof.
  unfold update_request_status. intros Hrun.
  destruct (request_status_in label) as [s|]; [|done].
  destruct (Sql.for_each_row _ _) as [rows|] eqn:Hrows; [|done].
  injection Hrun as <-. cbn [tbl_requests with_requests].
  apply for_each_row_inv in Hrows.
  assert (Hall : Forall2
            (λ r r', r' = r
                     ∨ (r' = requests.set_updated_at now r
                        ∧ requests.status r = open))
            (tbl_requests db) rows).
  { eapply Forall2_impl; [exact Hrows|]. intros r r'.
    apply update_request_row_inv. }
  split; [exact Hall|].
  clear Hrows. induction Hall as [|r r' rs rs' Hr _ IH]; [done|].
  rewrite !fmap_cons, IH. f_equal.
  by destruct Hr as [->|[-> _]].
Qed.

Lemma client_cannot_change_request_status_witness :
  update_request_status (Some Sample.alice) 10 "fulfilled" Sample.now
    Sample.db
  = Sql.Error Sql.insufficient_privilege
  ∧ ∃ db',
      update_request_status (Some Sample.bob) 10 "fulfilled" Sample.now
        Sample.db = Sql.Ok db'
      ∧ requests.status <$> tbl_requests db'
        = requests.status <$> tbl_requests Sample.db.
Proof.
  split; [vm_compute; reflexivity|].
  eexists. split; [reflexivity|].
  apply (client_cannot_change_request_status (Some Sample.bob) 10
           "fulfilled" Sample.now Sample.db).
  reflexivity.
Defined.

(** ** What the dashboard renders *)

(** X26: a card of the 'Requests' tab is a stored request with its columns
    unchanged, and its phone is shown only if an approved contact request
    names the caller as donor for that request; with such a contact request
    the row carries the stored phone of the request, which is shown unless
    it is the empty string, and without one the row carries no phone. *)
Theorem requests_tab_shows_phone_on_approval db t u row :
  row ∈ Dashboard.fetchRequests db t u →
  ∃ r,
    r ∈ tbl_requests db
    ∧ shares_columns r row
    ∧ (Dashboard.shows_phone row = true →
       ∃ cr, cr ∈ tbl_contact_requests db
             ∧ contact_requests.request_id cr = safe_requests.id row
             ∧ contact_requests.donor_id cr = u
             ∧ contact_requests.status cr = "approved")
    ∧ ((∃ cr, cr ∈ tbl_contact_requests db
              ∧ contact_requests.request_id cr = safe_requests.id row
              ∧ contact_requests.donor_id cr = u
              ∧ contact_requests.status cr = "approved") →
       safe_requests.requester_phone row
       = Some (requests.requester_phone r)
       ∧ Dashboard.shows_phone row
         = negb (bool_decide (requests.requester_phone r = "")))
    ∧ (¬ (∃ cr, cr ∈ tbl_contact_requests db
                ∧ contact_requests.request_id cr = safe_requests.id row
                ∧ contact_requests.donor_id cr = u
                ∧ contact_requests.status cr = "approved") →
       safe_requests.requester_phone row = None).
Proof.
  intros [Hne Hin]%list_elem_of_filter.
  apply elem_of_get_safe_requests in Hin as (r & -> & Hr & _).
  exists r. split; [exact Hr|].
  split; [apply safe_select_shares_columns|].
  cbn [safe_select safe_requests.requester_id safe_requests.id] in *.
  unfold Dashboard.shows_phone.
  cbn [safe_select safe_requests.requester_phone].
  assert (Honly : is_Some (safe_phone db (Some u) r) →
                  has_approved_contact db (Some u) r = true).
  { by intros [?|?]%safe_phone_is_Some. }
  rewrite <- has_approved_contact_iff.
  split; [|split].
  - intros Hshown. apply Honly.
    destruct (safe_phone db (Some u) r); [by eexists|done].
  - intros Happroved.
    assert (Hsome : is_Some (safe_phone db (Some u) r)).
    { apply safe_phone_is_Some. by right. }
    by rewrite (safe_phone_value _ _ _ Hsome).
  - intros Hnot.
    destruct (safe_phone db (Some u) r) as [phone|] eqn:Hphone; [|done].
    destruct Hnot. apply Honly. by eexists.
Qed.

Lemma requests_tab_shows_phone_on_approval_witness :
  let approved :=
    with_contact_requests
      [contact_requests.set_status "approved" Sample.invitation] Sample.db in
  safe_requests.requester_phone
    (safe_select Sample.db (Some Sample.bob) Sample.open_request) = None
  ∧ safe_requests.requester_phone
      (safe_select approved (Some Sample.bob) Sample.open_request)
    = Some "555-0100"
  ∧ Dashboard.shows_phone
      (safe_select approved (Some Sample.bob) Sample.open_request) = true.
Proof.
  intros approved. split.
  - destruct (requests_tab_shows_phone_on_approval Sample.db Sample.now
                Sample.bob
                (safe_select Sample.db (Some Sample.bob)
                   Sample.open_request))
      as (r & _ & _ & _ & _ & Hnone).
    { apply list_elem_of_filter. split; [vm_compute; discriminate|].
      apply elem_of_get_safe_requests. exists Sample.open_request.
      split; [reflexivity|]. split; [solve_elem_of|reflexivity]. }
    apply Hnone. intros (cr & Hcr & _ & _ & Hst).
    apply list_elem_of_singleton in Hcr as ->. discriminate Hst.
  - destruct (requests_tab_shows_phone_on_approval approved Sample.now
                Sample.bob
                (safe_select approved (Some Sample.bob)
                   Sample.open_request))
      as (r & Hr & _ & _ & Hshown & _).
    { apply list_elem_of_filter. split; [vm_compute; discriminate|].
      apply elem_of_get_safe_requests. exists Sample.open_request.
      split; [reflexivity|]. split; [solve_elem_of|reflexivity]. }
    assert (Hphone : requests.requester_phone r = "555-0100").
    { repeat (apply elem_of_cons in Hr as [->|Hr]; [reflexivity|]).
      by apply not_elem_of_nil in Hr. }
    rewrite Hphone in Hshown. apply Hshown.
    exists (contact_requests.set_status "approved" Sample.invitation).
    split; [apply list_elem_of_here|]. by repeat split.
Defined.

(** X27: the filter [req.status === 'open'] that the 'My Requests' tab
    applies before counting and rendering keeps every row: the list it is
    applied to holds open requests only. *)
Theorem my_requests_open_filter_keeps_all db t u :
  filter (λ row, safe_requests.status row = open) (fetchMyRequests db t u)
  = fetchMyRequests db t u.
Proof.
  apply filter_all, Forall_forall.
  intros row [_ Hin]%list_elem_of_filter.
  apply elem_of_get_safe_requests in Hin as (r & -> & _ & Hw).
  cbn [safe_select safe_requests.status].
  rewrite safe_where_holds, !andb_true_iff, bool_decide_eq_true in Hw.
  tauto.
Qed.
